(** * IrisAlerter: a shallow embedding of [elastalert/alerters/iris.py]

    The alerter turns the matches of a rule into an alert or a case of a
    DFIR-IRIS server.  The embedding follows the Python source method by
    method: Python objects are a small inductive type of JSON-like values,
    dictionaries are association lists in insertion order, exceptions are an
    error type, and the two effects of the module (HTTP requests and log
    lines) are threaded through an explicit world. *)

From Stdlib Require Import String Ascii List ZArith Lia Bool DecimalString.
From Equations Require Import Equations.
Import ListNotations.

Open Scope string_scope.
Open Scope list_scope.

(** ** Strings *)

Module Str.

Lemma append_nil_r (s : string) : (s ++ "")%string = s.
Proof. induction s as [|c s IH]; simpl; [reflexivity | now rewrite IH]. Qed.

Lemma append_assoc (a b c : string) :
  ((a ++ b) ++ c)%string = (a ++ (b ++ c))%string.
Proof. induction a as [|x a IH]; simpl; [reflexivity | now rewrite IH]. Qed.

Lemma length_append (a b : string) :
  String.length (a ++ b) = String.length a + String.length b.
Proof. induction a as [|x a IH]; simpl; [reflexivity | now rewrite IH]. Qed.

(** [starts_with p s]: [s.startswith(p)]. *)
Fixpoint starts_with (p s : string) : bool :=
  match p, s with
  | EmptyString, _ => true
  | String a p', String b s' => if Ascii.eqb a b then starts_with p' s' else false
  | String _ _, EmptyString => false
  end.

(** [str_in sub s]: Python's [sub in s] on two strings, the case-sensitive
    substring test. *)
Fixpoint str_in (sub s : string) : bool :=
  match s with
  | EmptyString => starts_with sub ""
  | String _ s' => starts_with sub s || str_in sub s'
  end.

(** [sep.join(l)]. *)
Fixpoint join (sep : string) (l : list string) : string :=
  match l with
  | [] => ""
  | [x] => x
  | x :: l' => x ++ sep ++ join sep l'
  end.

(** Decimal rendering of an integer, as [str] gives it. *)
Definition decimal (z : Z) : string := NilZero.string_of_int (Z.to_int z).

(** ASCII lower-casing, [str.lower] on ASCII text. *)
Definition lower_ascii (c : ascii) : ascii :=
  let n := nat_of_ascii c in
  if (65 <=? n)%nat && (n <=? 90)%nat then ascii_of_nat (n + 32) else c.

Fixpoint lower (s : string) : string :=
  match s with
  | EmptyString => ""
  | String c s' => String (lower_ascii c) (lower s')
  end.

Lemma starts_with_spec (p s : string) :
  starts_with p s = true <-> exists post, s = (p ++ post)%string.
Proof.
  revert s; induction p as [|a p IH]; intros s; simpl.
  - split; [intros _; now exists s | reflexivity].
  - destruct s as [|b s].
    + split; [discriminate | intros [post H]; discriminate].
    + destruct (Ascii.eqb_spec a b) as [->|Hne].
      * rewrite IH. split; intros [post H]; exists post.
        -- now rewrite H.
        -- now inversion H.
      * split; [discriminate | intros [post H]; simpl in H; congruence].
Qed.

Lemma str_in_spec (sub s : string) :
  str_in sub s = true <->
  exists pre post, s = (pre ++ sub ++ post)%string.
Proof.
  induction s as [|c s IH]; simpl.
  - rewrite starts_with_spec. split.
    + intros [post H]. now exists "", post.
    + intros [pre [post H]]. destruct pre; [now exists post | discriminate].
  - rewrite orb_true_iff, IH, starts_with_spec. split.
    + intros [[post H] | [pre [post H]]].
      * now exists "", post.
      * exists (String c pre), post. simpl. now rewrite H.
    + intros [pre [post H]]. destruct pre as [|x pre]; simpl in H.
      * left. now exists post.
      * right. inversion H. now exists pre, post.
Qed.

Lemma str_in_char (a c : ascii) (s : string) :
  str_in (String a "") (String c s) = Ascii.eqb a c || str_in (String a "") s.
Proof.
  cbn [str_in starts_with]. now destruct (Ascii.eqb a c).
Qed.

End Str.

(** ** Python values, dictionaries and exceptions *)

Module Py.

#[local] Set Warnings "-register-all".

(** The objects the alerter handles: rule options read from YAML, match
    documents and response bodies read from JSON. *)
Inductive value : Type :=
| VNone
| VBool (b : bool)
| VInt (z : Z)
| VStr (s : string)
| VList (l : list value)
| VDict (d : list (string * value)).

(** A [dict] with string keys, in insertion order. *)
Definition dict : Type := list (string * value).

(** The exceptions that can leave the module.  The built-in ones carry the
    type of the offending object (and the attribute or key looked up), not
    the interpreter's message text. *)
Inductive exn : Type :=
| IndexError
| KeyError (key : string)
| TypeError (ty : string)
| AttributeError (ty attr : string)
| RequestException (msg : string)
| EAException (msg : string).

Inductive result (A : Type) : Type :=
| Ok (a : A)
| Raise (e : exn).
Arguments Ok {A} a.
Arguments Raise {A} e.

Definition rbind {A B} (r : result A) (k : A -> result B) : result B :=
  match r with
  | Ok a => k a
  | Raise e => Raise e
  end.

Declare Scope py_scope.
Delimit Scope py_scope with py.
Notation "'let?' x := e 'in' k" := (rbind e (fun x => k))
  (at level 10, x pattern, e at level 100, k at level 200) : py_scope.
Open Scope py_scope.

(** [type(v).__name__]. *)
Definition type_name (v : value) : string :=
  match v with
  | VNone => "NoneType"
  | VBool _ => "bool"
  | VInt _ => "int"
  | VStr _ => "str"
  | VList _ => "list"
  | VDict _ => "dict"
  end.

(** [v is None]. *)
Definition is_none (v : value) : bool :=
  match v with
  | VNone => true
  | _ => false
  end.

(** [bool(v)]. *)
Definition truthy (v : value) : bool :=
  match v with
  | VNone => false
  | VBool b => b
  | VInt z => negb (Z.eqb z 0)
  | VStr s => negb (String.eqb s "")
  | VList l => match l with [] => false | _ => true end
  | VDict d => match d with [] => false | _ => true end
  end.

(** [d.get(k)] as an option, [d.get(k, default)], [k in d], [d[k] = v]. *)
Fixpoint dict_get (k : string) (d : dict) : option value :=
  match d with
  | [] => None
  | (k', v) :: d' => if String.eqb k k' then Some v else dict_get k d'
  end.

Definition dict_get_default (k : string) (default : value) (d : dict) : value :=
  match dict_get k d with
  | Some v => v
  | None => default
  end.

Definition dict_has (k : string) (d : dict) : bool :=
  match dict_get k d with
  | Some _ => true
  | None => false
  end.

Fixpoint dict_set (k : string) (v : value) (d : dict) : dict :=
  match d with
  | [] => [(k, v)]
  | (k', v') :: d' =>
      if String.eqb k k' then (k', v) :: d' else (k', v') :: dict_set k v d'
  end.

(** [container.get(k, default)] on an arbitrary object: only a dict has
    the method. *)
Definition py_get (container : value) (k : string) (default : value)
  : result value :=
  match container with
  | VDict d => Ok (dict_get_default k default d)
  | _ => Raise (AttributeError (type_name container) "get")
  end.

(** [needle in container] for a string needle. *)
Definition is_str (needle : string) (v : value) : bool :=
  match v with
  | VStr s => String.eqb needle s
  | _ => false
  end.

Definition py_in (needle : string) (container : value) : result bool :=
  match container with
  | VStr s => Ok (Str.str_in needle s)
  | VList l => Ok (existsb (is_str needle) l)
  | VDict d => Ok (dict_has needle d)
  | _ => Raise (TypeError (type_name container))
  end.

(** The elements a [for] loop runs over. *)
Fixpoint chars (s : string) : list value :=
  match s with
  | EmptyString => []
  | String c s' => VStr (String c "") :: chars s'
  end.

Definition py_iter (v : value) : result (list value) :=
  match v with
  | VList l => Ok l
  | VStr s => Ok (chars s)
  | VDict d => Ok (map (fun kv => VStr (fst kv)) d)
  | _ => Raise (TypeError (type_name v))
  end.

(** [v.copy()]: lists and dicts have it. *)
Definition py_copy (v : value) : result value :=
  match v with
  | VDict _ | VList _ => Ok v
  | _ => Raise (AttributeError (type_name v) "copy")
  end.

(** [v[k]] for a string key. *)
Definition py_getitem (v : value) (k : string) : result value :=
  match v with
  | VDict d => match dict_get k d with
               | Some x => Ok x
               | None => Raise (KeyError k)
               end
  | _ => Raise (TypeError (type_name v))
  end.

(** [v.items()]. *)
Definition py_items (v : value) : result (list (string * value)) :=
  match v with
  | VDict d => Ok d
  | _ => Raise (AttributeError (type_name v) "items")
  end.

(** [matches[0]]. *)
Definition first_match (matches : list dict) : result dict :=
  match matches with
  | m :: _ => Ok m
  | [] => Raise IndexError
  end.

(** The field-lookup helper of the framework is specified on field names;
    a rule that puts another object where a field name belongs stops with
    a [TypeError] here. *)
Definition as_field_name (v : value) : result string :=
  match v with
  | VStr s => Ok s
  | _ => Raise (TypeError (type_name v))
  end.

Lemma dict_get_set_same k v d : dict_get k (dict_set k v d) = Some v.
Proof.
  induction d as [|[k' v'] d IH]; simpl.
  - now rewrite String.eqb_refl.
  - destruct (String.eqb k k') eqn:E; simpl; rewrite E; [reflexivity | exact IH].
Qed.

Lemma dict_get_set_other k k' v d :
  k <> k' -> dict_get k (dict_set k' v d) = dict_get k d.
Proof.
  intros Hne. induction d as [|[k2 v2] d IH]; simpl.
  - destruct (String.eqb_spec k k'); [contradiction | reflexivity].
  - destruct (String.eqb_spec k' k2) as [->|Hk]; simpl.
    + destruct (String.eqb_spec k k2); [contradiction | reflexivity].
    + destruct (String.eqb k k2); [reflexivity | exact IH].
Qed.

Section Rendering.

(** [repr] is the interpreter's; [str] needs it for the elements of
    containers only. *)
Variable py_repr : value -> string.

Definition repr_item (kv : string * value) : string :=
  py_repr (VStr (fst kv)) ++ ": " ++ py_repr (snd kv).

(** [str(v)]. *)
Definition py_str (v : value) : string :=
  match v with
  | VNone => "None"
  | VBool true => "True"
  | VBool false => "False"
  | VInt z => Str.decimal z
  | VStr s => s
  | VList l => ("[" ++ Str.join ", " (map py_repr l) ++ "]")%string
  | VDict d =>
      ("{" ++ Str.join ", " (map repr_item d) ++ "}")%string
  end.

End Rendering.

End Py.

(** ** The placeholder pattern

    [re.sub(r'\{0\[([^\]]+)\]\}', replace_field, s)]: the string is scanned
    from the left; where the pattern matches, the match is replaced by what
    the callback returns for group 1 and scanning resumes after the match;
    elsewhere the character is kept. *)

Module Re.

Import Py.

(** What the scan finds: a kept character or a match with its group 1. *)
Inductive segment : Type :=
| Text (c : ascii)
| Field (name : string).

(** [[^\]]+], greedy: the longest run of characters other than a closing
    bracket.  The run cannot give characters back: what follows it must be
    a closing bracket, and the run holds none. *)
Fixpoint span_name (s : string) : string * string :=
  match s with
  | EmptyString => ("", "")
  | String c s' =>
      if Ascii.eqb c "]" then ("", s)
      else let '(name, rest) := span_name s' in (String c name, rest)
  end.

(** The pattern anchored at the start of [s]: group 1 and what follows
    the match. *)
Definition match_at (s : string) : option (string * string) :=
  match s with
  | String "{" (String "0" (String "[" s1)) =>
      match span_name s1 with
      | (String c name, String "]" (String "}" rest)) => Some (String c name, rest)
      | _ => None
      end
  | _ => None
  end.

Lemma span_name_append (s : string) :
  s = (fst (span_name s) ++ snd (span_name s))%string.
Proof.
  induction s as [|c s IH]; simpl; [reflexivity|].
  destruct (Ascii.eqb c "]"); [reflexivity|].
  destruct (span_name s) as [name rest]; simpl in *. now rewrite <- IH.
Qed.

Lemma match_at_source (s name rest : string) :
  match_at s = Some (name, rest) ->
  s = ("{0[" ++ name ++ "]}" ++ rest)%string.
Proof.
  unfold match_at. intros H.
  destruct s as [|c0 s]; [discriminate|].
  destruct (Ascii.eqb_spec c0 "{") as [->|Hc0];
    [|destruct c0 as [[] [] [] [] [] [] [] []]; try discriminate; now elim Hc0].
  destruct s as [|c1 s]; [discriminate|].
  destruct (Ascii.eqb_spec c1 "0") as [->|Hc1];
    [|destruct c1 as [[] [] [] [] [] [] [] []]; try discriminate; now elim Hc1].
  destruct s as [|c2 s]; [discriminate|].
  destruct (Ascii.eqb_spec c2 "[") as [->|Hc2];
    [|destruct c2 as [[] [] [] [] [] [] [] []]; try discriminate; now elim Hc2].
  pose proof (span_name_append s) as Hs.
  destruct (span_name s) as [n r]; simpl in Hs.
  destruct n as [|c n]; [discriminate|].
  destruct r as [|r0 r]; [discriminate|].
  destruct (Ascii.eqb_spec r0 "]") as [->|Hr0];
    [|destruct r0 as [[] [] [] [] [] [] [] []]; try discriminate; now elim Hr0].
  destruct r as [|r1 r]; [discriminate|].
  destruct (Ascii.eqb_spec r1 "}") as [->|Hr1];
    [|destruct r1 as [[] [] [] [] [] [] [] []]; try discriminate; now elim Hr1].
  injection H as <- <-. simpl. now rewrite Hs.
Qed.

Lemma match_at_shorter (s name rest : string) :
  match_at s = Some (name, rest) -> String.length rest < String.length s.
Proof.
  intros H. apply match_at_source in H. subst s.
  simpl. rewrite !Str.length_append. simpl. lia.
Qed.

Definition inspect {A} (a : A) : {b : A | a = b} := exist _ a eq_refl.

(** The scan of [re.sub]: leftmost matches, not overlapping. *)
Equations? scan (s : string) : list segment by wf (String.length s) lt :=
  scan EmptyString := [];
  scan (String c s') with inspect (match_at (String c s')) := {
    | exist _ (Some (name, rest)) _ := Field name :: scan rest;
    | exist _ None _ := Text c :: scan s' }.
Proof.
  exact (match_at_shorter (String c s') name rest e).
Qed.

(** The text a segment was read from. *)
Definition source (seg : segment) : string :=
  match seg with
  | Text c => String c ""
  | Field name => "{0[" ++ name ++ "]}"
  end.

Fixpoint sources (segs : list segment) : string :=
  match segs with
  | [] => ""
  | seg :: segs' => source seg ++ sources segs'
  end.

(** Segments that are kept characters only. *)
Definition is_text (seg : segment) : bool :=
  match seg with
  | Text _ => true
  | Field _ => false
  end.

Definition texts (segs : list segment) : bool := forallb is_text segs.

(** The replacement: the callback is run on each match in turn, and the
    first exception it raises ends the substitution. *)
Fixpoint substitute (repl : string -> result string) (segs : list segment)
  : result string :=
  match segs with
  | [] => Ok ""
  | Text c :: segs' =>
      let? out := substitute repl segs' in Ok (String c out)
  | Field name :: segs' =>
      let? val := repl name in
      let? out := substitute repl segs' in Ok (val ++ out)%string
  end.

Definition re_sub (repl : string -> result string) (s : string) : result string :=
  substitute repl (scan s).

End Re.

(** ** Requests, the log and the world *)

Module Http.

Import Py.

(** The arguments of one [requests.post] call. *)
Record request : Type := {
  post_url : string;
  post_headers : dict;
  post_json : dict;
  post_verify : value
}.

(** What the call gives back: a response, of which the module reads the
    status code and the decoded body, or a transport failure. *)
Record response : Type := {
  status_code : Z;
  json : result value
}.

Inductive reply : Type :=
| Returned (r : response)
| Failed (msg : string).

(** The state an invocation acts on: the requests posted so far, the lines
    logged so far and whether the client warnings were switched off. *)
Record world : Type := {
  posted : list request;
  logged : list string;
  warnings_disabled : bool
}.

Definition idle : world :=
  {| posted := []; logged := []; warnings_disabled := false |}.

(** Computations that may raise and act on the world. *)
Definition M (A : Type) : Type := world -> result A * world.

Definition ret {A} (a : A) : M A := fun w => (Ok a, w).

Definition raise {A} (e : exn) : M A := fun w => (Raise e, w).

Definition bind {A B} (m : M A) (k : A -> M B) : M B :=
  fun w => match m w with
           | (Ok a, w') => k a w'
           | (Raise e, w') => (Raise e, w')
           end.

Definition lift {A} (r : result A) : M A := fun w => (r, w).

Declare Scope http_scope.
Delimit Scope http_scope with http.
Notation "x <- m ;; k" := (bind m (fun x => k))
  (at level 61, m at next level, right associativity) : http_scope.
Notation "' pat <- m ;; k" :=
  (bind m (fun x => match x with pat => k end))
  (at level 61, pat pattern, m at next level, right associativity) : http_scope.
Notation "m ;; k" := (bind m (fun _ => k))
  (at level 61, right associativity) : http_scope.
Open Scope http_scope.

(** [elastalert_logger.info(line)]. *)
Definition info (line : string) : M unit :=
  fun w => (Ok tt, {| posted := posted w;
                      logged := logged w ++ [line];
                      warnings_disabled := warnings_disabled w |}).

(** [requests.packages.urllib3.disable_warnings()]. *)
Definition disable_warnings : M unit :=
  fun w => (Ok tt, {| posted := posted w;
                      logged := logged w;
                      warnings_disabled := true |}).

(** [try: body  except RequestException as e: raise EAException(wrap(e))]. *)
Definition except_request {A} (body : M A) (wrap : string -> string) : M A :=
  fun w => match body w with
           | (Raise (RequestException msg), w') => (Raise (EAException (wrap msg)), w')
           | other => other
           end.

(** [for x in l: body(x)]. *)
Fixpoint for_each {A} (body : A -> M unit) (l : list A) : M unit :=
  match l with
  | [] => ret tt
  | x :: l' => body x ;; for_each body l'
  end.

Section Server.

(** The remote end: its reply to a request, given how many requests
    the invocation posted before it. *)
Variable server : nat -> request -> reply.

(** [requests.post(url=..., headers=..., json=..., verify=...)]. *)
Definition post (req : request) : M response :=
  fun w =>
    let w' := {| posted := posted w ++ [req];
                 logged := logged w;
                 warnings_disabled := warnings_disabled w |} in
    match server (length (posted w)) req with
    | Returned r => (Ok r, w')
    | Failed msg => (Raise (RequestException msg), w')
    end.

End Server.

End Http.

(** ** Collaborators to run the model with

    Concrete stand-ins for what the module takes from its surroundings,
    used to evaluate the embedding on concrete rules and matches. *)

Module Sample.

Import Py Http.

(** A hexadecimal digit, in lower case. *)
Definition hex_digit (n : nat) : ascii :=
  ascii_of_nat (if (n <? 10)%nat then 48 + n else 87 + n).

Definition backslash : ascii := "092".

(** One character inside the quotes of [repr]: the quote character and the
    backslash are escaped, control characters are written as escapes. *)
Definition escape (quote c : ascii) : string :=
  let n := nat_of_ascii c in
  if Ascii.eqb c quote || Ascii.eqb c backslash then String backslash (String c "")
  else if (n =? 9)%nat then String backslash "t"
  else if (n =? 10)%nat then String backslash "n"
  else if (n =? 13)%nat then String backslash "r"
  else if (n <? 32)%nat || (n =? 127)%nat
       then String backslash
              (String "x" (String (hex_digit (n / 16))
                             (String (hex_digit (n mod 16)) "")))
  else String c "".

Fixpoint escape_all (quote : ascii) (s : string) : string :=
  match s with
  | EmptyString => ""
  | String c s' => escape quote c ++ escape_all quote s'
  end.

(** [repr] of a string of ASCII characters: in single quotes, unless the
    string holds a single quote and no double quote. *)
Definition repr_str (s : string) : string :=
  let quote :=
    if Str.str_in "'" s && negb (Str.str_in (String "034" "") s)
    then "034"%char else "'"%char in
  String quote (escape_all quote s ++ String quote "").

(** [repr] of a value. *)
Fixpoint repr (v : value) : string :=
  match v with
  | VNone => "None"
  | VBool true => "True"
  | VBool false => "False"
  | VInt z => Str.decimal z
  | VStr s => repr_str s
  | VList l => "[" ++ Str.join ", " (map repr l) ++ "]"
  | VDict d =>
      "{" ++ Str.join ", "
               (map (fun kv => match kv with
                               | (k, x) => repr_str k ++ ": " ++ repr x
                               end) d)
          ++ "}"
  end%string.

(** The components of a dotted path. *)
Fixpoint split_dots (s : string) : list string :=
  match s with
  | EmptyString => [""]
  | String c s' =>
      if Ascii.eqb c "." then "" :: split_dots s'
      else match split_dots s' with
           | head :: tail => String c head :: tail
           | [] => [String c ""]
           end
  end.

(** The value a path leads to inside nested objects, [VNone] when a
    component is missing. *)
Fixpoint descend (path : list string) (v : value) : value :=
  match path with
  | [] => v
  | key :: path' =>
      match v with
      | VDict d => match dict_get key d with
                   | Some x => descend path' x
                   | None => VNone
                   end
      | _ => VNone
      end
  end.

(** Modelled from the spec: [lookup_es_key] of [elastalert.util], which
    is not part of this module.  The field name is a dotted path into the
    match record; a missing field and a null value both give no value. *)
Definition lookup_es_key (match_ : dict) (term : string) : value :=
  descend (split_dots term) (VDict match_).

(** The base class's title and body, fixed texts here. *)
Definition create_title (matches : list dict) : value := VStr "Test Rule".

Definition create_alert_body (matches : list dict) : value :=
  VStr "Test Rule body".

(** A clock reading and the text of a UUID. *)
Definition now : string := "2024-05-01T12:00:00".

Definition uuid4 : string := "3f2b8c1e-5d47-4a9b-8e2f-6c1d0a7b9e34".

(** A case-creation body whose [data.case_id] is 7. *)
Definition case_body : value :=
  VDict [("data", VDict [("case_id", VInt 7)])].

(** A server that answers every request with 200 and [case_body]. *)
Definition accepting (n : nat) (req : request) : reply :=
  Returned {| status_code := 200; json := Ok case_body |}.

(** A server that accepts the first [k] requests and answers the later
    ones with [status]. *)
Definition rejecting_from (k : nat) (status : Z) (n : nat) (req : request)
  : reply :=
  if (n <? k)%nat then accepting n req
  else Returned {| status_code := status; json := Ok VNone |}.

(** A server whose case-creation body has no [data] entry. *)
Definition without_data (n : nat) (req : request) : reply :=
  Returned {| status_code := 200; json := Ok (VDict [("status", VStr "success")]) |}.

(** A match record. *)
Definition event : dict :=
  [("@timestamp", VStr "2024-04-30T23:59:59");
   ("host", VDict [("name", VStr "web-1"); ("ip", VList [VStr "10.0.0.1"; VStr "10.0.0.2"; VStr "10.0.0.3"])]);
   ("user", VStr "");
   ("hash", VStr "d41d8cd9")].

(** Modelled from the spec: the constructor of the [Alerter] base class,
    in [elastalert.alerts], which is not part of this module; it resolves
    the options of the rule once, at construction.  The sample rules are
    resolved already: no option of theirs refers to another one, and the
    rule is kept as it is. *)
Definition super_init (rule : dict) : dict := rule.

(** A rule with the required options only. *)
Definition base_rule : dict :=
  [("name", VStr "Test Rule");
   ("iris_host", VStr "iris.example");
   ("iris_api_token", VStr "token")].

(** Three IOC templates, the second on a field the event lacks. *)
Definition ioc_templates : value :=
  VList [VDict [("ioc_value", VStr "host.name"); ("ioc_type_id", VInt 69)];
         VDict [("ioc_value", VStr "missing"); ("ioc_type_id", VInt 1)];
         VDict [("ioc_value", VStr "hash"); ("ioc_type_id", VInt 90)]].

(** Three templates whose fields the event holds. *)
Definition three_iocs : value :=
  VList [VDict [("ioc_value", VStr "host.name"); ("ioc_type_id", VInt 69)];
         VDict [("ioc_value", VStr "hash"); ("ioc_type_id", VInt 90)];
         VDict [("ioc_value", VStr "@timestamp"); ("ioc_type_id", VInt 1)]].

(** An alert rule with a description template and IOC templates. *)
Definition alert_rule : dict :=
  ("iris_description", VStr "Host {0[host.name]} seen")
  :: ("iris_iocs", ioc_templates) :: base_rule.

(** A case rule with three IOC templates. *)
Definition case_rule : dict :=
  ("iris_type", VStr "case") :: ("iris_iocs", three_iocs) :: base_rule.

(** A rule whose mode is written in capitals. *)
Definition shouting_rule : dict :=
  ("iris_type", VStr "ALERT") :: base_rule.

(** A rule whose description is one token, on a field the event holds as
    the empty string. *)
Definition blank_description_rule : dict :=
  ("iris_description", VStr "{0[user]}") :: base_rule.

(** A rule with one IOC template, on a field the event holds as the empty
    string. *)
Definition empty_user_rule : dict :=
  ("iris_iocs", VList [VDict [("ioc_value", VStr "user"); ("ioc_type_id", VInt 3)]])
  :: base_rule.

(** A rule with a context mapping that overwrites the timestamp. *)
Definition context_rule : dict :=
  ("iris_alert_context",
   VDict [("hostname", VStr "host.name"); ("owner", VStr "owner");
          ("rule", VStr "name")])
  :: ("iris_overwrite_timestamp", VBool true) :: base_rule.

(** A rule whose second IOC template has no [ioc_value]. *)
Definition bad_ioc_rule : dict :=
  ("iris_iocs",
   VList [VDict [("ioc_value", VStr "host.name"); ("ioc_type_id", VInt 69)];
          VDict [("ioc_type_id", VInt 90)]])
  :: base_rule.

(** A case rule that ignores SSL errors. *)
Definition ignoring_rule : dict :=
  ("iris_ignore_ssl_errors", VBool true) :: case_rule.

(** A title of the base class that still holds a token. *)
Definition templated_title (matches : list dict) : value :=
  VStr "Alert on {0[host.name]}".

(** A server that accepts the first [k] requests and whose connection
    fails on the later ones. *)
Definition failing_from (k : nat) (cause : string) (n : nat) (req : request)
  : reply :=
  if (n <? k)%nat then accepting n req else Failed cause.

(** A server whose case-creation body holds a null [data]. *)
Definition null_data (n : nat) (req : request) : reply :=
  Returned {| status_code := 200;
              json := Ok (VDict [("status", VStr "error"); ("data", VNone)]) |}.

End Sample.

(** ** The alerter *)

Import Py Http.

(** The attributes [__init__] sets. *)
Record IrisAlerter : Type := {
  rule : dict;
  url : string;
  api_token : value;
  customer_id : value;
  ca_cert : value;
  ignore_ssl_errors : value;
  description : value;
  overwrite_timestamp : value;
  type : value;
  case_template_id : value;
  headers : dict;
  alert_note : value;
  alert_source : value;
  alert_tags : value;
  alert_status_id : value;
  alert_source_link : value;
  alert_severity_id : value;
  alert_context : value;
  iocs : value
}.

(** The three ways [alert] can go. *)
Inductive branch : Type :=
| AlertSubmit
| CaseSubmit
| Idle.

(** A loop that threads an accumulator and stops at the first exception. *)
Fixpoint foldM {A S} (body : S -> A -> result S) (l : list A) (acc : S)
  : result S :=
  match l with
  | [] => Ok acc
  | x :: l' => let? acc' := body acc x in foldM body l' acc'
  end.

Section Alerter.

(** What the module takes from its surroundings: [repr] of the
    interpreter, [lookup_es_key] of [elastalert.util] (a Python [None]
    result is [VNone]), [create_title] and [create_alert_body] of the
    [Alerter] base class, the clock reading
    [datetime.now().strftime("%Y-%m-%dT%H:%M:%S")], the text of a fresh
    [uuid.uuid4()], and the server. *)
Variable py_repr : value -> string.
Variable lookup_es_key : dict -> string -> value.
Variable create_title : list dict -> value.
Variable create_alert_body : list dict -> value.
Variable now : string.
Variable uuid4 : string.
Variable server : nat -> request -> reply.

(** The constructor of the [Alerter] base class, in [elastalert.alerts]:
    [super_init rule] is the rule as [super(IrisAlerter,
    self).__init__(rule)] leaves it in [self.rule], with the references
    between its options resolved. *)
Variable super_init : dict -> dict.

Abbreviation str := (py_str py_repr).

Definition init (rule : dict) : IrisAlerter :=
  let rule := super_init rule in
  let get k := dict_get_default k VNone rule in
  let get_or k default := dict_get_default k default rule in
  {| rule := rule;
     url := "https://" ++ str (get "iris_host");
     api_token := get "iris_api_token";
     customer_id := get_or "iris_customer_id" (VInt 1);
     ca_cert := get "iris_ca_cert";
     ignore_ssl_errors := get_or "iris_ignore_ssl_errors" (VBool false);
     description := get_or "iris_description" VNone;
     overwrite_timestamp := get_or "iris_overwrite_timestamp" (VBool false);
     type := get_or "iris_type" (VStr "alert");
     case_template_id := get_or "iris_case_template_id" VNone;
     headers := [("Content-Type", VStr "application/json");
                 ("Authorization", VStr ("Bearer " ++ str (get "iris_api_token")))];
     alert_note := get_or "iris_alert_note" VNone;
     alert_source := get_or "iris_alert_source" (VStr "ElastAlert2");
     alert_tags := get_or "iris_alert_tags" VNone;
     alert_status_id := get_or "iris_alert_status_id" (VInt 2);
     alert_source_link := get_or "iris_alert_source_link" VNone;
     alert_severity_id := get_or "iris_alert_severity_id" (VInt 1);
     alert_context := get_or "iris_alert_context" VNone;
     iocs := get_or "iris_iocs" VNone |}.

Definition lookup_field (self : IrisAlerter) (match_ : dict)
           (field_name : string) (default : value) : value :=
  match lookup_es_key match_ field_name with
  | VNone => dict_get_default field_name default (rule self)
  | field_value => field_value
  end.

(** The callback given to [re.sub]; [field_name] is group 1. *)
Definition replace_field (matches : list dict) (field_name : string)
  : result string :=
  let? first := first_match matches in
  match lookup_es_key first field_name with
  | VNone => Ok ("<MISSING: " ++ field_name ++ ">")%string
  | VList items => Ok (Str.join ", " (map str items))
  | field_value => Ok (str field_value)
  end.

(** Returns [VNone] or a [VStr]. *)
Definition format_string_with_match (template_string : value)
           (matches : list dict) : result value :=
  match template_string with
  | VNone => Ok VNone
  | _ =>
      let? out := Re.re_sub (replace_field matches) (str template_string) in
      Ok (VStr out)
  end.

Definition make_alert_context_records (self : IrisAlerter)
           (matches : list dict) : result dict :=
  let? items := py_items (alert_context self) in
  foldM (fun alert_context '(key, value) =>
           let? first := first_match matches in
           let? field_name := as_field_name value in
           let data := VStr (str (lookup_field self first field_name (VStr ""))) in
           Ok (dict_set key data alert_context))
        items [].

Definition make_iocs_records (self : IrisAlerter) (matches : list dict)
  : result (list dict) :=
  let? records := py_iter (iocs self) in
  foldM (fun iocs record =>
           let? record_data := py_copy record in
           let? first := first_match matches in
           let? path := py_getitem record "ioc_value" in
           let? field_name := as_field_name path in
           let ioc_value := lookup_es_key first field_name in
           match record_data with
           | VDict d =>
               let record_data := dict_set "ioc_value" ioc_value d in
               match ioc_value with
               | VNone => Ok iocs
               | _ => Ok (iocs ++ [record_data])
               end
           | _ => Raise (TypeError (type_name record_data))
           end)
        records [].

Definition make_alert (self : IrisAlerter) (matches : list dict) : M dict :=
  event_timestamp <-
    lift (if truthy (overwrite_timestamp self)
          then let? first := first_match matches in
               Ok (dict_get_default "@timestamp" VNone first)
          else Ok (VStr now)) ;;
  formatted_description <- lift (format_string_with_match (description self) matches) ;;
  formatted_alert_note <- lift (format_string_with_match (alert_note self) matches) ;;
  formatted_alert_tags <- lift (format_string_with_match (alert_tags self) matches) ;;
  info ("IRIS Alert Tags: " ++ str formatted_alert_tags) ;;
  let alert_title := create_title matches in
  alert_title <-
    lift (if Str.str_in "{0[" (str alert_title)
          then format_string_with_match alert_title matches
          else Ok alert_title) ;;
  let alert_data :=
    [("alert_title", alert_title);
     ("alert_description", formatted_description);
     ("alert_source", alert_source self);
     ("alert_severity_id", alert_severity_id self);
     ("alert_status_id", alert_status_id self);
     ("alert_source_event_time", event_timestamp);
     ("alert_note", formatted_alert_note);
     ("alert_tags", formatted_alert_tags);
     ("alert_customer_id", customer_id self)] in
  let alert_data :=
    if negb (truthy (description self))
    then dict_set "alert_description" (create_alert_body matches) alert_data
    else alert_data in
  let alert_data :=
    if truthy (alert_source_link self)
    then dict_set "alert_source_link" (alert_source_link self) alert_data
    else alert_data in
  alert_data <-
    (if truthy (iocs self)
     then iocs <- lift (make_iocs_records self matches) ;;
          ret (dict_set "alert_iocs" (VList (map VDict iocs)) alert_data)
     else ret alert_data) ;;
  alert_data <-
    (if truthy (alert_context self)
     then alert_context <- lift (make_alert_context_records self matches) ;;
          ret (dict_set "alert_context" (VDict alert_context) alert_data)
     else ret alert_data) ;;
  ret alert_data.

Definition make_case (self : IrisAlerter) (matches : list dict)
  : result (dict * list dict) :=
  let case_data :=
    [("case_soc_id", VStr ("SOC_" ++ String.substring 0 6 uuid4));
     ("case_customer", customer_id self);
     ("case_name", dict_get_default "name" VNone (rule self));
     ("case_description", description self)] in
  let? iocs :=
    (if truthy (iocs self) then make_iocs_records self matches else Ok []) in
  let case_data :=
    if truthy (case_template_id self)
    then dict_set "case_template_id" (case_template_id self) case_data
    else case_data in
  Ok (case_data, iocs).

(** The [if 'alert' in self.type: ... elif 'case' in self.type: ...]
    chain of [alert]. *)
Definition dispatch (type : value) : result branch :=
  let? is_alert := py_in "alert" type in
  if is_alert then Ok AlertSubmit
  else let? is_case := py_in "case" type in
       if is_case then Ok CaseSubmit else Ok Idle.

(** The three requests, as [alert] posts them. *)
Definition alert_request (self : IrisAlerter) (verify : value)
           (alert_data : dict) : request :=
  {| post_url := url self ++ "/alerts/add";
     post_headers := headers self;
     post_json := alert_data;
     post_verify := verify |}.

Definition case_request (self : IrisAlerter) (verify : value)
           (case_data : dict) : request :=
  {| post_url := url self ++ "/manage/cases/add";
     post_headers := headers self;
     post_json := case_data;
     post_verify := verify |}.

Definition ioc_request (self : IrisAlerter) (verify : value)
           (ioc : dict) : request :=
  {| post_url := url self ++ "/case/ioc/add";
     post_headers := headers self;
     post_json := ioc;
     post_verify := verify |}.

Definition submit_alert (self : IrisAlerter) (verify : value)
           (matches : list dict) : M unit :=
  alert_data <- make_alert self matches ;;
  except_request
    (alert_response <- post server (alert_request self verify alert_data) ;;
     if negb (Z.eqb (status_code alert_response) 200)
     then raise (EAException ("Cannot create a new alert: "
                              ++ Str.decimal (status_code alert_response)))
     else ret tt)
    (fun e => "Error posting alert to Iris: " ++ e)%string ;;
  info "Alert sent to Iris".

(** The body of the loop over the IOC records of a case. *)
Definition attach_ioc (self : IrisAlerter) (verify case_id : value)
           (ioc : dict) : M unit :=
  let ioc := dict_set "cid" case_id ioc in
  except_request
    (response_ioc <- post server (ioc_request self verify ioc) ;;
     if negb (Z.eqb (status_code response_ioc) 200)
     then raise (EAException ("Unable to add a new IOC to the case "
                              ++ str case_id))
     else ret tt)
    (fun e => "Error when adding IOC to the case " ++ str case_id ++ ": " ++ e)%string ;;
  info "IOCs successfully added to the case".

Definition submit_case (self : IrisAlerter) (verify : value)
           (matches : list dict) : M unit :=
  '(case_data, iocs) <- lift (make_case self matches) ;;
  except_request
    (case_response <- post server (case_request self verify case_data) ;;
     if Z.eqb (status_code case_response) 200
     then case_response_data <- lift (json case_response) ;;
          data <- lift (py_get case_response_data "data" (VStr "")) ;;
          case_id <- lift (py_get data "case_id" VNone) ;;
          for_each (attach_ioc self verify case_id) iocs
     else raise (EAException ("Cannot create a new case: "
                              ++ Str.decimal (status_code case_response))))
    (fun e => "Error posting the case to Iris: " ++ e)%string ;;
  info "Case successfully created in Iris".

(** The [verify] argument [alert] computes for its requests. *)
Definition tls_verify (self : IrisAlerter) : value :=
  if truthy (ca_cert self) then ca_cert self
  else VBool (negb (truthy (ignore_ssl_errors self))).

Definition alert (self : IrisAlerter) (matches : list dict) : M unit :=
  let verify := tls_verify self in
  (if truthy (ignore_ssl_errors self) then disable_warnings else ret tt) ;;
  chosen <- lift (dispatch (type self)) ;;
  match chosen with
  | AlertSubmit => submit_alert self verify matches
  | CaseSubmit => submit_case self verify matches
  | Idle => ret tt
  end.

Definition get_info (self : IrisAlerter) : dict :=
  [("type", VStr "IrisAlerter"); ("iris_api_endpoint", VStr (url self))].


(** ** Facts about the scan *)

Lemma sources_app (l1 l2 : list Re.segment) :
  Re.sources (l1 ++ l2) = (Re.sources l1 ++ Re.sources l2)%string.
Proof.
  induction l1 as [|seg l1 IH]; simpl; [reflexivity|].
  now rewrite IH, Str.append_assoc.
Qed.

(** The scan loses nothing: reading the segments back gives the string. *)
Lemma scan_sources (s : string) : Re.sources (Re.scan s) = s.
Proof.
  funelim (Re.scan s).
  - reflexivity.
  - match goal with
    | E : Re.match_at _ = Some _, IH : Re.sources _ = _ |- _ =>
        rewrite (Re.match_at_source _ _ _ E); simpl; rewrite IH;
        now rewrite Str.append_assoc
    end.
  - simpl. match goal with IH : Re.sources _ = _ |- _ => now rewrite IH end.
Qed.

Lemma span_name_no_bracket (s : string) :
  Str.str_in "]" (fst (Re.span_name s)) = false.
Proof.
  induction s as [|c s IH]; [reflexivity|].
  cbn [Re.span_name].
  destruct (Ascii.eqb c "]") eqn:E; [reflexivity|].
  destruct (Re.span_name s) as [name rest]; cbn [fst] in *.
  now rewrite Str.str_in_char, Ascii.eqb_sym, E, IH.
Qed.

(** Group 1 of a match is not empty and holds no closing bracket. *)
Lemma match_at_name (s name rest : string) :
  Re.match_at s = Some (name, rest) ->
  name <> "" /\ Str.str_in "]" name = false.
Proof.
  unfold Re.match_at. intros H.
  repeat match type of H with
         | match ?x with _ => _ end = _ =>
             match x with
             | Re.span_name _ => fail 1
             | _ => destruct x; try discriminate
             end
         end.
  match type of H with
  | context [Re.span_name ?t] =>
      pose proof (span_name_no_bracket t) as Hn;
      destruct (Re.span_name t) as [n r]
  end.
  simpl in Hn.
  repeat match type of H with
         | match ?x with _ => _ end = _ => destruct x; try discriminate
         end.
  injection H as <- <-. split; [discriminate | exact Hn].
Qed.

Lemma scan_field_name (s name : string) :
  In (Re.Field name) (Re.scan s) ->
  name <> "" /\ Str.str_in "]" name = false.
Proof.
  funelim (Re.scan s); simpl.
  - intros [].
  - intros [Heq | Hin].
    + injection Heq as ->. eapply match_at_name; eassumption.
    + eauto.
  - intros [Heq | Hin]; [discriminate | eauto].
Qed.

Lemma texts_no_field (segs : list Re.segment) :
  (forall name, ~ In (Re.Field name) segs) -> Re.texts segs = true.
Proof.
  induction segs as [|[c|name] segs IH]; simpl; intros H.
  - reflexivity.
  - apply IH. intros name Hin. apply (H name). now right.
  - exfalso. apply (H name). now left.
Qed.

Lemma substitute_texts repl (segs : list Re.segment) :
  Re.texts segs = true -> Re.substitute repl segs = Ok (Re.sources segs).
Proof.
  induction segs as [|[c|name] segs IH]; simpl; intros H.
  - reflexivity.
  - now rewrite (IH H).
  - discriminate.
Qed.

Lemma substitute_app repl (l1 l2 : list Re.segment) :
  Re.substitute repl (l1 ++ l2) =
  (let? out1 := Re.substitute repl l1 in
   let? out2 := Re.substitute repl l2 in
   Ok (out1 ++ out2)%string).
Proof.
  induction l1 as [|[c|name] l1 IH]; simpl.
  - now destruct (Re.substitute repl l2).
  - rewrite IH. destruct (Re.substitute repl l1); simpl; [|reflexivity].
    now destruct (Re.substitute repl l2).
  - destruct (repl name); simpl; [|reflexivity].
    rewrite IH. destruct (Re.substitute repl l1); simpl; [|reflexivity].
    destruct (Re.substitute repl l2); simpl; [|reflexivity].
    now rewrite Str.append_assoc.
Qed.

Lemma substitute_total repl (segs : list Re.segment) :
  (forall name, exists out, repl name = Ok out) ->
  exists out, Re.substitute repl segs = Ok out.
Proof.
  intros Hrepl. induction segs as [|[c|name] segs [out IH]]; simpl.
  - now exists "".
  - rewrite IH. simpl. now eexists.
  - destruct (Hrepl name) as [val ->]. rewrite IH. simpl. now eexists.
Qed.

Lemma replace_field_total (first : dict) (rest : list dict) (name : string) :
  exists out, replace_field (first :: rest) name = Ok out.
Proof.
  unfold replace_field. simpl.
  destruct (lookup_es_key first name); now eexists.
Qed.

(** The run of a name stops at the first closing bracket. *)
Lemma span_name_stop (name rest : string) :
  Str.str_in "]" name = false ->
  Re.span_name (name ++ String "]" rest) = (name, String "]" rest).
Proof.
  induction name as [|c name IH]; intros Hname.
  - reflexivity.
  - rewrite Str.str_in_char in Hname. apply orb_false_iff in Hname as [Hc Hrest].
    cbn [String.append Re.span_name].
    rewrite Ascii.eqb_sym, Hc, (IH Hrest). reflexivity.
Qed.

(** The pattern matches wherever a token stands. *)
Lemma match_at_token (name rest : string) :
  name <> "" ->
  Str.str_in "]" name = false ->
  Re.match_at ("{0[" ++ name ++ "]}" ++ rest) = Some (name, rest).
Proof.
  intros Hne Hname.
  change ("{0[" ++ name ++ "]}" ++ rest)%string
    with (String "{" (String "0" (String "[" (name ++ String "]" (String "}" rest))))).
  cbn [Re.match_at]. rewrite (span_name_stop _ _ Hname).
  destruct name; [congruence | reflexivity].
Qed.

(** A string that holds a token is not scanned into kept characters
    only. *)
Lemma scan_finds_token (s : string) :
  forall before name after,
    name <> "" ->
    Str.str_in "]" name = false ->
    s = (before ++ "{0[" ++ name ++ "]}" ++ after)%string ->
    Re.texts (Re.scan s) = false.
Proof.
  funelim (Re.scan s); intros before name' after Hne Hname Hs.
  - destruct before; discriminate.
  - reflexivity.
  - destruct before as [|b before].
    + match goal with
      | E : Re.match_at _ = None |- _ =>
          pose proof E as Hnone; rewrite Hs in Hnone;
          change (Re.match_at ("{0[" ++ name' ++ "]}" ++ after) = None) in Hnone;
          rewrite (match_at_token name' after Hne Hname) in Hnone; discriminate
      end.
    + cbn [String.append] in Hs. injection Hs as _ Hs.
      change (Re.texts (Re.scan s') = false).
      match goal with
      | IH : context [Re.texts] |- _ => exact (IH before name' after Hne Hname Hs)
      end.
Qed.

(** ** Field resolution and template formatting *)

(** [C4] Resolution order of [lookup_field]: the value the match holds
    under the field name when the lookup yields one; otherwise the value
    the rule holds under that name when the rule has the key; otherwise
    the default. *)
Theorem lookup_field_order (self : IrisAlerter) (match_ : dict)
        (field_name : string) (default : value) :
  (lookup_es_key match_ field_name <> VNone ->
   lookup_field self match_ field_name default = lookup_es_key match_ field_name) /\
  (lookup_es_key match_ field_name = VNone ->
   forall configured,
     dict_get field_name (rule self) = Some configured ->
     lookup_field self match_ field_name default = configured) /\
  (lookup_es_key match_ field_name = VNone ->
   dict_get field_name (rule self) = None ->
   lookup_field self match_ field_name default = default).
Proof.
  unfold lookup_field, dict_get_default.
  repeat split.
  - intros Hsome. destruct (lookup_es_key match_ field_name); congruence.
  - intros -> configured ->. reflexivity.
  - intros -> ->. reflexivity.
Qed.

(** A template that holds no match of the pattern is scanned into kept
    characters only. *)
Lemma scan_without_token (template : string) :
  (forall before name after,
     name <> "" -> Str.str_in "]" name = false ->
     template <> (before ++ "{0[" ++ name ++ "]}" ++ after)%string) ->
  Re.texts (Re.scan template) = true.
Proof.
  intros Hfree. apply texts_no_field. intros name Hin.
  destruct (scan_field_name _ _ Hin) as [Hne Hbr].
  destruct (in_split _ _ Hin) as [l1 [l2 Hsplit]].
  apply (Hfree (Re.sources l1) name (Re.sources l2) Hne Hbr).
  rewrite <- (scan_sources template) at 1.
  rewrite Hsplit, sources_app. simpl.
  now rewrite Str.append_assoc.
Qed.

(** [C8] Formatting passes [None] through, and returns a template that
    holds no [{0[...]}] token unchanged, whatever the matches are. *)
Theorem format_identity :
  (forall matches, format_string_with_match VNone matches = Ok VNone) /\
  (forall template matches,
     (forall before name after,
        name <> "" -> Str.str_in "]" name = false ->
        template <> (before ++ "{0[" ++ name ++ "]}" ++ after)%string) ->
     format_string_with_match (VStr template) matches = Ok (VStr template)).
Proof.
  split; [reflexivity|].
  intros template matches Hfree.
  unfold format_string_with_match, Re.re_sub. cbn [py_str].
  rewrite (substitute_texts _ _ (scan_without_token _ Hfree)).
  simpl. now rewrite scan_sources.
Qed.

(** What [format_string_with_match] returns around one token: the
    segments before and after the token are substituted on their own and
    the token's replacement stands between them. *)
Lemma format_around_token (template : value) (first : dict) (rest : list dict)
      (before after : list Re.segment) (name : string) :
  template <> VNone ->
  Re.scan (str template) = before ++ Re.Field name :: after ->
  exists out_before out_after replaced,
    Re.substitute (replace_field (first :: rest)) before = Ok out_before /\
    Re.substitute (replace_field (first :: rest)) after = Ok out_after /\
    replace_field (first :: rest) name = Ok replaced /\
    format_string_with_match template (first :: rest) =
      Ok (VStr (out_before ++ replaced ++ out_after)).
Proof.
  intros Hnone Hscan.
  destruct (substitute_total (replace_field (first :: rest)) before
              (replace_field_total first rest)) as [out_before Hb].
  destruct (substitute_total (replace_field (first :: rest)) after
              (replace_field_total first rest)) as [out_after Ha].
  destruct (replace_field_total first rest name) as [replaced Hr].
  exists out_before, out_after, replaced. repeat split; try assumption.
  assert (Hsub : Re.re_sub (replace_field (first :: rest)) (str template)
                 = Ok (out_before ++ replaced ++ out_after)%string).
  { unfold Re.re_sub. rewrite Hscan, substitute_app, Hb.
    cbn [rbind Re.substitute]. rewrite Hr, Ha. reflexivity. }
  unfold format_string_with_match.
  destruct template; try congruence; now rewrite Hsub.
Qed.

(** [C3] Formatting a template other than [None] against a non-empty
    match sequence returns a string; a token whose field has no value in
    the first match is replaced, where it stands, by the marker
    [<MISSING: field.path>]. *)
Theorem format_total (template : value) (matches : list dict) :
  template <> VNone ->
  matches <> [] ->
  (exists out, format_string_with_match template matches = Ok (VStr out)) /\
  (forall first rest before name after,
     matches = first :: rest ->
     Re.scan (str template) = before ++ Re.Field name :: after ->
     lookup_es_key first name = VNone ->
     str template
       = (Re.sources before ++ "{0[" ++ name ++ "]}" ++ Re.sources after)%string /\
     exists out_before out_after,
       Re.substitute (replace_field matches) before = Ok out_before /\
       Re.substitute (replace_field matches) after = Ok out_after /\
       format_string_with_match template matches =
         Ok (VStr (out_before ++ ("<MISSING: " ++ name ++ ">") ++ out_after))).
Proof.
  intros Hnone Hne. split.
  - destruct matches as [|first rest]; [congruence|].
    destruct (substitute_total (replace_field (first :: rest))
                (Re.scan (str template)) (replace_field_total first rest))
      as [out Hout].
    exists out. unfold format_string_with_match, Re.re_sub.
    destruct template; try congruence; now rewrite Hout.
  - intros first rest before name after -> Hscan Hlookup. split.
    + rewrite <- (scan_sources (str template)) at 1.
      rewrite Hscan, sources_app. simpl. now rewrite Str.append_assoc.
    + destruct (format_around_token template first rest before after name
                  Hnone Hscan)
        as [out_before [out_after [replaced [Hb [Ha [Hr Hfmt]]]]]].
      exists out_before, out_after. repeat split; try assumption.
      unfold replace_field in Hr. cbn [first_match rbind] in Hr.
      rewrite Hlookup in Hr. injection Hr as <-. exact Hfmt.
Qed.

(** [C9] A token whose field resolves in the first match to a list is
    replaced, where it stands, by the elements converted with [str] and
    joined with a comma and a space; the text outside tokens is kept. *)
Theorem format_list_joined (template : value) (first : dict) (rest : list dict)
        (before after : list Re.segment) (name : string) (items : list value) :
  template <> VNone ->
  Re.scan (str template) = before ++ Re.Field name :: after ->
  lookup_es_key first name = VList items ->
  str template
    = (Re.sources before ++ "{0[" ++ name ++ "]}" ++ Re.sources after)%string /\
  exists out_before out_after,
    Re.substitute (replace_field (first :: rest)) before = Ok out_before /\
    Re.substitute (replace_field (first :: rest)) after = Ok out_after /\
    (Re.texts before = true -> out_before = Re.sources before) /\
    (Re.texts after = true -> out_after = Re.sources after) /\
    format_string_with_match template (first :: rest) =
      Ok (VStr (out_before ++ Str.join ", " (map str items) ++ out_after)).
Proof.
  intros Hnone Hscan Hlookup. split.
  - rewrite <- (scan_sources (str template)) at 1.
    rewrite Hscan, sources_app. simpl. now rewrite Str.append_assoc.
  - destruct (format_around_token template first rest before after name
                Hnone Hscan)
      as [out_before [out_after [replaced [Hb [Ha [Hr Hfmt]]]]]].
    exists out_before, out_after. repeat split; try assumption.
    + intros Ht. rewrite (substitute_texts _ _ Ht) in Hb. congruence.
    + intros Ht. rewrite (substitute_texts _ _ Ht) in Ha. congruence.
    + unfold replace_field in Hr. cbn [first_match rbind] in Hr.
      rewrite Hlookup in Hr. injection Hr as <-. exact Hfmt.
Qed.

(** ** IOC records *)

(** The loop of [make_iocs_records] over well-formed templates, from any
    accumulator. *)
Lemma make_iocs_loop (first : dict) (rest : list dict)
      (templates : list dict) (paths : list string) :
  Forall2 (fun template path =>
             dict_get "ioc_value" template = Some (VStr path))
          templates paths ->
  forall acc,
    foldM (fun iocs record =>
             let? record_data := py_copy record in
             let? first := first_match (first :: rest) in
             let? path := py_getitem record "ioc_value" in
             let? field_name := as_field_name path in
             let ioc_value := lookup_es_key first field_name in
             match record_data with
             | VDict d =>
                 let record_data := dict_set "ioc_value" ioc_value d in
                 match ioc_value with
                 | VNone => Ok iocs
                 | _ => Ok (iocs ++ [record_data])
                 end
             | _ => Raise (TypeError (type_name record_data))
             end)
          (map VDict templates) acc
    = Ok (acc ++
          map (fun '(template, path) =>
                 dict_set "ioc_value" (lookup_es_key first path) template)
              (filter (fun '(_, path) =>
                         negb (is_none (lookup_es_key first path)))
                      (combine templates paths))).
Proof.
  induction 1 as [|template path templates paths Hpath _ IH]; intros acc.
  - simpl. now rewrite app_nil_r.
  - cbn [map foldM py_copy first_match py_getitem rbind combine filter].
    rewrite Hpath. cbn [as_field_name rbind].
    destruct (lookup_es_key first path) eqn:E; cbn [is_none negb rbind map];
      rewrite IH; try reflexivity;
      rewrite ?E; now rewrite <- app_assoc.
Qed.

(** [C5] Over templates that each name a field under [ioc_value], and a
    non-empty match sequence, [make_iocs_records] leaves out exactly the
    records whose field has no value ([None]) in the first match; the
    others come in template order, each its template with [ioc_value]
    set to the value found. *)
Theorem make_iocs_records_kept (self : IrisAlerter) (first : dict)
        (rest : list dict) (templates : list dict) (paths : list string) :
  iocs self = VList (map VDict templates) ->
  Forall2 (fun template path =>
             dict_get "ioc_value" template = Some (VStr path))
          templates paths ->
  make_iocs_records self (first :: rest)
  = Ok (map (fun '(template, path) =>
               dict_set "ioc_value" (lookup_es_key first path) template)
            (filter (fun '(_, path) =>
                       negb (is_none (lookup_es_key first path)))
                    (combine templates paths))).
Proof.
  intros Hiocs Hpaths. unfold make_iocs_records.
  rewrite Hiocs.
  exact (make_iocs_loop first rest templates paths Hpaths []).
Qed.

(** ** The alert payload *)

Lemma bind_Ok_inv {A B} (m : M A) (k : A -> M B) (w w' : world) (b : B) :
  bind m k w = (Ok b, w') ->
  exists a w1, m w = (Ok a, w1) /\ k a w1 = (Ok b, w').
Proof.
  unfold bind. destruct (m w) as [[a|e] w1]; intros H.
  - now exists a, w1.
  - discriminate.
Qed.

Lemma lift_Ok_inv {A} (r : result A) (w w' : world) (a : A) :
  lift r w = (Ok a, w') -> r = Ok a /\ w' = w.
Proof. unfold lift. intros H. now injection H as -> ->. Qed.

Ltac invert_bind H :=
  let a := fresh "x" in
  let w := fresh "w" in
  let H1 := fresh "Hstep" in
  apply bind_Ok_inv in H; destruct H as (a & w & H1 & H).

Lemma ret_Ok_inv {A} (a b : A) (w w' : world) :
  ret a w = (Ok b, w') -> b = a /\ w' = w.
Proof. unfold ret. intros H. now injection H as -> ->. Qed.

(** The payload [make_alert] returns, step by step. *)
Lemma make_alert_shape (self : IrisAlerter) (matches : list dict)
      (w w' : world) (payload : dict) :
  make_alert self matches w = (Ok payload, w') ->
  exists title timestamp formatted_description formatted_note formatted_tags
         records context,
    format_string_with_match (description self) matches = Ok formatted_description /\
    format_string_with_match (alert_note self) matches = Ok formatted_note /\
    format_string_with_match (alert_tags self) matches = Ok formatted_tags /\
    payload =
      let base :=
        [("alert_title", title);
         ("alert_description", formatted_description);
         ("alert_source", alert_source self);
         ("alert_severity_id", alert_severity_id self);
         ("alert_status_id", alert_status_id self);
         ("alert_source_event_time", timestamp);
         ("alert_note", formatted_note);
         ("alert_tags", formatted_tags);
         ("alert_customer_id", customer_id self)] in
      let described :=
        if negb (truthy (description self))
        then dict_set "alert_description" (create_alert_body matches) base
        else base in
      let linked :=
        if truthy (alert_source_link self)
        then dict_set "alert_source_link" (alert_source_link self) described
        else described in
      let with_iocs :=
        if truthy (iocs self)
        then dict_set "alert_iocs" (VList (map VDict records)) linked
        else linked in
      if truthy (alert_context self)
      then dict_set "alert_context" (VDict context) with_iocs
      else with_iocs.
Proof.
  unfold make_alert. intros H.
  do 8 invert_bind H.
  apply ret_Ok_inv in H as [-> _].
  apply lift_Ok_inv in Hstep0 as [Hd _].
  apply lift_Ok_inv in Hstep1 as [Hn _].
  apply lift_Ok_inv in Hstep2 as [Ht _].
  destruct (truthy (iocs self)) eqn:Ei;
    destruct (truthy (alert_context self)) eqn:Ec;
    repeat match goal with
           | Hb : bind _ _ _ = (Ok _, _) |- _ => invert_bind Hb
           | Hr : ret _ _ = (Ok _, _) |- _ => apply ret_Ok_inv in Hr as [-> _]
           end.
  all: do 5 eexists.
  1: do 2 eexists.
  2: eexists; exists [].
  3: exists []; eexists.
  4: exists [], [].
  all: repeat split; try eassumption; reflexivity.
Qed.

(** [C6] In a payload [make_alert] returns, the keys [alert_source_link],
    [alert_iocs] and [alert_context] are present exactly when their option
    is set to a non-empty value; the keys [alert_note] and [alert_tags]
    are always present and hold the formatted option, which is [None]
    when the option is unset. *)
Theorem make_alert_optional_keys (self : IrisAlerter) (matches : list dict)
        (w w' : world) (payload : dict) :
  make_alert self matches w = (Ok payload, w') ->
  dict_has "alert_source_link" payload = truthy (alert_source_link self) /\
  dict_has "alert_iocs" payload = truthy (iocs self) /\
  dict_has "alert_context" payload = truthy (alert_context self) /\
  (exists note,
     format_string_with_match (alert_note self) matches = Ok note /\
     dict_get "alert_note" payload = Some note) /\
  (exists tags,
     format_string_with_match (alert_tags self) matches = Ok tags /\
     dict_get "alert_tags" payload = Some tags) /\
  (alert_note self = VNone -> dict_get "alert_note" payload = Some VNone) /\
  (alert_tags self = VNone -> dict_get "alert_tags" payload = Some VNone).
Proof.
  intros H.
  destruct (make_alert_shape _ _ _ _ _ H)
    as (title & timestamp & fd & fn & ft & records & context
        & Hd & Hn & Ht & ->).
  assert (Hcases :
            forall b1 b2 b3 b4 : bool,
              (b1 = true \/ b1 = false) /\ (b2 = true \/ b2 = false) /\
              (b3 = true \/ b3 = false) /\ (b4 = true \/ b4 = false))
    by (intros [] [] [] []; auto).
  destruct (Hcases (truthy (description self)) (truthy (alert_source_link self))
              (truthy (iocs self)) (truthy (alert_context self)))
    as ([E1|E1] & [E2|E2] & [E3|E3] & [E4|E4]);
    rewrite E1, E2, E3, E4; clear Hcases;
    (repeat match goal with |- _ /\ _ => split end;
     [ reflexivity | reflexivity | reflexivity
     | exists fn; now split
     | exists ft; now split
     | intros Hunset; rewrite Hunset in Hn; cbn in Hn;
       injection Hn as <-; reflexivity
     | intros Hunset; rewrite Hunset in Ht; cbn in Ht;
       injection Ht as <-; reflexivity ]).
Qed.

(** [C7] In a payload [make_alert] returns, [alert_description] is the
    standard alert body built from the matches when the configured
    description is unset or empty, and the formatted description
    otherwise, also when that formats to the empty string. *)
Theorem make_alert_description (self : IrisAlerter) (matches : list dict)
        (w w' : world) (payload : dict) :
  make_alert self matches w = (Ok payload, w') ->
  (truthy (description self) = false ->
   dict_get "alert_description" payload = Some (create_alert_body matches)) /\
  (truthy (description self) = true ->
   exists formatted,
     format_string_with_match (description self) matches = Ok (VStr formatted) /\
     dict_get "alert_description" payload = Some (VStr formatted)).
Proof.
  intros H.
  destruct (make_alert_shape _ _ _ _ _ H)
    as (title & timestamp & fd & fn & ft & records & context
        & Hd & Hn & Ht & ->).
  split; intros Hdesc; rewrite Hdesc.
  - destruct (truthy (alert_source_link self)), (truthy (iocs self)),
      (truthy (alert_context self)); reflexivity.
  - assert (Hstr : exists formatted, fd = VStr formatted).
    { unfold format_string_with_match in Hd.
      destruct (description self); try discriminate;
        destruct (Re.re_sub _ _); try discriminate;
        injection Hd as <-; now eexists. }
    destruct Hstr as [formatted ->]. exists formatted. split; [exact Hd|].
    destruct (truthy (alert_source_link self)), (truthy (iocs self)),
      (truthy (alert_context self)); reflexivity.
Qed.

(** ** Submission *)

(** The steps of [alert] before the dispatch leave the requests and the
    log as they are. *)
Lemma alert_prelude (self : IrisAlerter) (w : world) :
  exists w1,
    (if truthy (ignore_ssl_errors self) then disable_warnings else ret tt) w
      = (Ok tt, w1) /\
    posted w1 = posted w /\ logged w1 = logged w.
Proof.
  destruct (truthy (ignore_ssl_errors self)); eexists; repeat split.
Qed.

(** [C2] Dispatch on the mode string is by case-sensitive containment:
    the alert branch is taken, and [alert] runs the alert submission, iff
    the string contains [alert]; the case branch is taken, and [alert]
    runs the case submission, iff the string contains [case] and not
    [alert]; and when it contains neither, [alert] returns without posting
    a request or logging a line. *)
Theorem dispatch_by_substring (self : IrisAlerter) (mode : string)
        (matches : list dict) (w : world) :
  type self = VStr mode ->
  (dispatch (type self) = Ok AlertSubmit <->
   exists pre post, mode = (pre ++ "alert" ++ post)%string) /\
  (dispatch (type self) = Ok CaseSubmit <->
   (exists pre post, mode = (pre ++ "case" ++ post)%string) /\
   ~ (exists pre post, mode = (pre ++ "alert" ++ post)%string)) /\
  (dispatch (type self) = Ok AlertSubmit ->
   alert self matches w =
   ((if truthy (ignore_ssl_errors self) then disable_warnings else ret tt) ;;
    submit_alert self (tls_verify self) matches) w) /\
  (dispatch (type self) = Ok CaseSubmit ->
   alert self matches w =
   ((if truthy (ignore_ssl_errors self) then disable_warnings else ret tt) ;;
    submit_case self (tls_verify self) matches) w) /\
  (~ (exists pre post, mode = (pre ++ "alert" ++ post)%string) ->
   ~ (exists pre post, mode = (pre ++ "case" ++ post)%string) ->
   exists w',
     alert self matches w = (Ok tt, w') /\
     posted w' = posted w /\ logged w' = logged w).
Proof.
  intros Htype.
  assert (Hrun : forall chosen,
             dispatch (type self) = Ok chosen ->
             alert self matches w =
             ((if truthy (ignore_ssl_errors self) then disable_warnings else ret tt) ;;
              match chosen with
              | AlertSubmit => submit_alert self (tls_verify self) matches
              | CaseSubmit => submit_case self (tls_verify self) matches
              | Idle => ret tt
              end) w).
  { intros chosen Hchosen. unfold alert, bind.
    destruct ((if truthy (ignore_ssl_errors self) then disable_warnings else ret tt) w)
      as [[[]|e] w1]; [|reflexivity].
    unfold lift. now rewrite Hchosen. }
  split; [|split; [|split; [exact (Hrun AlertSubmit) | split; [exact (Hrun CaseSubmit) |]]]].
  - rewrite Htype. unfold dispatch. cbn [py_in rbind].
    rewrite <- Str.str_in_spec.
    destruct (Str.str_in "alert" mode), (Str.str_in "case" mode);
      intuition congruence.
  - rewrite Htype. unfold dispatch. cbn [py_in rbind].
    rewrite <- !Str.str_in_spec.
    destruct (Str.str_in "alert" mode), (Str.str_in "case" mode);
      intuition congruence.
  - rewrite <- !Str.str_in_spec. intros Hno_alert Hno_case.
    assert (Hidle : dispatch (type self) = Ok Idle).
    { rewrite Htype. unfold dispatch. cbn [py_in rbind].
      destruct (Str.str_in "alert" mode); [now elim Hno_alert|].
      destruct (Str.str_in "case" mode); [now elim Hno_case | reflexivity]. }
    rewrite (Hrun Idle Hidle).
    destruct (alert_prelude self w) as (w1 & Hpre & Hposted & Hlogged).
    exists w1. unfold bind. rewrite Hpre. now repeat split.
Qed.

(** One pass of the IOC loop when the server accepts the record. *)
Lemma attach_ioc_accepted (self : IrisAlerter) (verify case_id : value)
      (ioc : dict) (w : world) (r : response) :
  server (length (posted w))
         (ioc_request self verify (dict_set "cid" case_id ioc)) = Returned r ->
  status_code r = 200%Z ->
  exists w',
    attach_ioc self verify case_id ioc w = (Ok tt, w') /\
    posted w' = posted w ++ [ioc_request self verify (dict_set "cid" case_id ioc)].
Proof.
  intros Hreply Hstatus.
  unfold attach_ioc, bind, except_request, post, info.
  rewrite Hreply, Hstatus. cbn. eexists. split; reflexivity.
Qed.

(** One pass of the IOC loop when the server answers with another
    status. *)
Lemma attach_ioc_rejected (self : IrisAlerter) (verify case_id : value)
      (ioc : dict) (w : world) (r : response) :
  server (length (posted w))
         (ioc_request self verify (dict_set "cid" case_id ioc)) = Returned r ->
  status_code r <> 200%Z ->
  exists w',
    attach_ioc self verify case_id ioc w
      = (Raise (EAException ("Unable to add a new IOC to the case " ++ str case_id)), w') /\
    posted w' = posted w ++ [ioc_request self verify (dict_set "cid" case_id ioc)].
Proof.
  intros Hreply Hstatus.
  unfold attach_ioc, bind, except_request, post, info.
  rewrite Hreply. apply Z.eqb_neq in Hstatus. rewrite Hstatus.
  cbn. eexists. split; reflexivity.
Qed.

(** The IOC loop stops at the first record the server rejects. *)
Lemma for_each_attach_fail (self : IrisAlerter) (verify case_id : value) :
  forall (records : list dict) (i : nat) (w : world),
    i < length records ->
    (forall j ioc,
       j < i -> nth_error records j = Some ioc ->
       exists r,
         server (length (posted w) + j)
                (ioc_request self verify (dict_set "cid" case_id ioc)) = Returned r /\
         status_code r = 200%Z) ->
    (forall ioc,
       nth_error records i = Some ioc ->
       exists r,
         server (length (posted w) + i)
                (ioc_request self verify (dict_set "cid" case_id ioc)) = Returned r /\
         status_code r <> 200%Z) ->
    exists w',
      for_each (attach_ioc self verify case_id) records w
        = (Raise (EAException ("Unable to add a new IOC to the case " ++ str case_id)), w') /\
      posted w' =
        posted w ++
        map (fun ioc => ioc_request self verify (dict_set "cid" case_id ioc))
            (firstn (S i) records).
Proof.
  induction records as [|ioc records IH]; intros i w Hlen Hbefore Hat.
  - simpl in Hlen. lia.
  - destruct i as [|i].
    + destruct (Hat ioc eq_refl) as (r & Hreply & Hstatus).
      rewrite Nat.add_0_r in Hreply.
      destruct (attach_ioc_rejected self verify case_id ioc w r Hreply Hstatus)
        as (w' & Hrun & Hposted).
      exists w'. cbn [for_each]. unfold bind. rewrite Hrun. now split.
    + destruct (Hbefore 0 ioc (Nat.lt_0_succ i) eq_refl) as (r & Hreply & Hstatus).
      rewrite Nat.add_0_r in Hreply.
      destruct (attach_ioc_accepted self verify case_id ioc w r Hreply Hstatus)
        as (w1 & Hrun & Hposted).
      destruct (IH i w1) as (w' & Hloop & Hposted').
      * simpl in Hlen. lia.
      * intros j ioc' Hj Hnth.
        rewrite Hposted, length_app, <- Nat.add_assoc. cbn [length Nat.add].
        apply (Hbefore (S j) ioc'); [lia | exact Hnth].
      * intros ioc' Hnth.
        rewrite Hposted, length_app, <- Nat.add_assoc. cbn [length Nat.add].
        apply (Hat ioc'). exact Hnth.
      * exists w'. cbn [for_each]. unfold bind at 1. rewrite Hrun. split.
        -- exact Hloop.
        -- rewrite Hposted', Hposted, <- app_assoc. reflexivity.
Qed.

(** [C1] In case mode, once the case is created, the IOC records are
    attached in order and the first record the server answers with a
    status other than 200 ends the invocation: the requests posted are the
    case creation and the attach calls up to and including that record,
    and the invocation fails with an [EAException] whose message names
    the case id. *)
Theorem ioc_linking_fail_fast (self : IrisAlerter) (matches : list dict)
        (w : world) (case_data : dict) (records : list dict)
        (body data case_id : value) (i : nat) :
  dispatch (type self) = Ok CaseSubmit ->
  make_case self matches = Ok (case_data, records) ->
  server (length (posted w)) (case_request self (tls_verify self) case_data)
    = Returned {| status_code := 200; json := Ok body |} ->
  py_get body "data" (VStr "") = Ok data ->
  py_get data "case_id" VNone = Ok case_id ->
  i < length records ->
  (forall j ioc,
     j < i -> nth_error records j = Some ioc ->
     exists r,
       server (length (posted w) + 1 + j)
              (ioc_request self (tls_verify self) (dict_set "cid" case_id ioc))
         = Returned r /\
       status_code r = 200%Z) ->
  (forall ioc,
     nth_error records i = Some ioc ->
     exists r,
       server (length (posted w) + 1 + i)
              (ioc_request self (tls_verify self) (dict_set "cid" case_id ioc))
         = Returned r /\
       status_code r <> 200%Z) ->
  exists w',
    alert self matches w
      = (Raise (EAException ("Unable to add a new IOC to the case " ++ str case_id)), w') /\
    posted w' =
      posted w ++
      case_request self (tls_verify self) case_data ::
      map (fun ioc => ioc_request self (tls_verify self) (dict_set "cid" case_id ioc))
          (firstn (S i) records).
Proof.
  intros Hmode Hcase Hcreate Hdata Hid Hlen Hbefore Hat.
  destruct (alert_prelude self w) as (w1 & Hpre & Hp & Hl).
  rewrite <- Hp in Hcreate, Hbefore, Hat.
  pose (w2 := {| posted := posted w1 ++ [case_request self (tls_verify self) case_data];
                 logged := logged w1;
                 warnings_disabled := warnings_disabled w1 |}).
  destruct (for_each_attach_fail self (tls_verify self) case_id records i w2 Hlen)
    as (w' & Hloop & Hposted).
  { intros j ioc Hj Hnth. cbn [w2 posted]. rewrite length_app. cbn [length].
    now apply Hbefore. }
  { intros ioc Hnth. cbn [w2 posted]. rewrite length_app. cbn [length].
    now apply Hat. }
  exists w'. split.
  - unfold alert. unfold bind at 1. rewrite Hpre.
    unfold bind at 1. unfold lift at 1. rewrite Hmode.
    unfold submit_case. unfold bind at 1. unfold lift at 1. rewrite Hcase.
    unfold bind at 1. unfold except_request.
    unfold bind at 1. unfold post at 1. rewrite Hcreate.
    cbn [status_code json Z.eqb Pos.eqb].
    unfold bind at 1. unfold lift at 1.
    unfold bind at 1. unfold lift at 1. rewrite Hdata.
    unfold bind at 1. unfold lift at 1. rewrite Hid.
    fold w2. rewrite Hloop. reflexivity.
  - rewrite Hposted. cbn [w2 posted]. rewrite Hp, <- app_assoc. reflexivity.
Qed.

(** [C10] In case mode, when the case-creation response has status 200
    and a JSON object without a [data] entry, the lookup of [data] falls
    back to the empty string, [.get] on that string raises an
    [AttributeError], which leaves [alert] as it is, and no IOC-attach
    request has been posted. *)
Theorem case_without_data_attribute_error (self : IrisAlerter)
        (matches : list dict) (w : world) (case_data : dict)
        (records : list dict) (body : dict) :
  dispatch (type self) = Ok CaseSubmit ->
  make_case self matches = Ok (case_data, records) ->
  server (length (posted w)) (case_request self (tls_verify self) case_data)
    = Returned {| status_code := 200; json := Ok (VDict body) |} ->
  dict_get "data" body = None ->
  py_get (VDict body) "data" (VStr "") = Ok (VStr "") /\
  exists w',
    alert self matches w = (Raise (AttributeError "str" "get"), w') /\
    posted w' = posted w ++ [case_request self (tls_verify self) case_data].
Proof.
  intros Hmode Hcase Hcreate Hdata.
  assert (Hget : py_get (VDict body) "data" (VStr "") = Ok (VStr "")).
  { unfold py_get, dict_get_default. now rewrite Hdata. }
  split; [exact Hget|].
  destruct (alert_prelude self w) as (w1 & Hpre & Hp & Hl).
  rewrite <- Hp in Hcreate.
  eexists. split.
  - unfold alert. unfold bind at 1. rewrite Hpre.
    unfold bind at 1. unfold lift at 1. rewrite Hmode.
    unfold submit_case. unfold bind at 1. unfold lift at 1. rewrite Hcase.
    unfold bind at 1. unfold except_request.
    unfold bind at 1. unfold post at 1. rewrite Hcreate.
    cbn [status_code json Z.eqb Pos.eqb].
    unfold bind at 1. unfold lift at 1.
    unfold bind at 1. unfold lift at 1. rewrite Hget.
    unfold bind at 1. unfold lift at 1.
    cbn [py_get type_name]. reflexivity.
  - cbn [posted]. now rewrite Hp.
Qed.

(** ** Further properties of formatting *)

(** A callback that raises at every match ends the substitution at the
    first match. *)
Lemma substitute_raises (repl : string -> result string) (e : exn)
      (segs : list Re.segment) :
  (forall name, repl name = Raise e) ->
  Re.texts segs = false ->
  Re.substitute repl segs = Raise e.
Proof.
  intros Hrepl. induction segs as [|[c|name] segs IH]; simpl; intros H.
  - discriminate.
  - now rewrite (IH H).
  - now rewrite Hrepl.
Qed.

(** [X1] A token whose field resolves in the first match to a value that
    is neither [None] nor a list is replaced, where it stands, by [str] of
    that value; the value is inserted as it is, not scanned again. *)
Theorem format_scalar_value (template : value) (first : dict) (rest : list dict)
        (before after : list Re.segment) (name : string) :
  template <> VNone ->
  Re.scan (str template) = before ++ Re.Field name :: after ->
  lookup_es_key first name <> VNone ->
  (forall items, lookup_es_key first name <> VList items) ->
  exists out_before out_after,
    Re.substitute (replace_field (first :: rest)) before = Ok out_before /\
    Re.substitute (replace_field (first :: rest)) after = Ok out_after /\
    format_string_with_match template (first :: rest) =
      Ok (VStr (out_before ++ str (lookup_es_key first name) ++ out_after)).
Proof.
  intros Hnone Hscan Hvalue Hlist.
  destruct (format_around_token template first rest before after name Hnone Hscan)
    as (out_before & out_after & replaced & Hb & Ha & Hr & Hfmt).
  exists out_before, out_after. split; [exact Hb | split; [exact Ha |]].
  unfold replace_field in Hr. cbn [first_match rbind] in Hr.
  destruct (lookup_es_key first name) as [| | | |items|] eqn:E;
    try (injection Hr as <-; exact Hfmt).
  - congruence.
  - elim (Hlist items). reflexivity.
Qed.

(** [X2] Against an empty match sequence a template that holds a token
    cannot be formatted: [matches[0]] raises [IndexError]. *)
Theorem format_empty_matches (template : value) (before name after : string) :
  template <> VNone ->
  name <> "" ->
  Str.str_in "]" name = false ->
  str template = (before ++ "{0[" ++ name ++ "]}" ++ after)%string ->
  format_string_with_match template [] = Raise IndexError.
Proof.
  intros Hnone Hname Hbracket Htoken.
  pose proof (scan_finds_token _ before name after Hname Hbracket Htoken) as Hscan.
  assert (Hsub : Re.re_sub (replace_field []) (str template) = Raise IndexError).
  { unfold Re.re_sub. apply substitute_raises; [reflexivity | exact Hscan]. }
  unfold format_string_with_match.
  destruct template; try congruence; now rewrite Hsub.
Qed.

(** ** Further properties of the IOC and context records *)

Lemma foldM_app {A S} (body : S -> A -> result S) (l1 l2 : list A) (acc : S) :
  foldM body (l1 ++ l2) acc =
  (let? acc' := foldM body l1 acc in foldM body l2 acc').
Proof.
  revert acc. induction l1 as [|x l1 IH]; intros acc; simpl.
  - reflexivity.
  - destruct (body acc x); simpl; [apply IH | reflexivity].
Qed.

(** The body of the loop of [make_iocs_records]. *)
Abbreviation ioc_step matches :=
  (fun (iocs : list dict) (record : value) =>
     let? record_data := py_copy record in
     let? first := first_match matches in
     let? path := py_getitem record "ioc_value" in
     let? field_name := as_field_name path in
     let ioc_value := lookup_es_key first field_name in
     match record_data with
     | VDict d =>
         let record_data := dict_set "ioc_value" ioc_value d in
         match ioc_value with
         | VNone => Ok iocs
         | _ => Ok (iocs ++ [record_data])
         end
     | _ => Raise (TypeError (type_name record_data))
     end).

(** One pass of the loop adds at most one record, whose [ioc_value] is a
    value. *)
Lemma ioc_step_invariant (matches : list dict) (acc acc' : list dict)
      (record : value) :
  ioc_step matches acc record = Ok acc' ->
  acc' = acc \/
  exists added value,
    acc' = acc ++ [added] /\
    dict_get "ioc_value" added = Some value /\ value <> VNone.
Proof.
  intros H.
  destruct record as [| | | |l|d]; try discriminate;
    destruct matches as [|first rest]; try discriminate;
    cbn [py_copy first_match py_getitem rbind] in H; try discriminate.
  destruct (dict_get "ioc_value" d) as [path|]; [|discriminate].
  destruct path as [| | |field_name| |]; try discriminate.
  cbn [as_field_name rbind] in H.
  destruct (lookup_es_key first field_name) eqn:E;
    injection H as <-;
    first [ now left
          | right; eexists; eexists; split; [reflexivity |];
            split; [apply dict_get_set_same | discriminate] ].
Qed.

Lemma ioc_loop_invariant (matches : list dict) (records : list value) :
  forall acc out,
    foldM (ioc_step matches) records acc = Ok out ->
    Forall (fun record => exists value,
                dict_get "ioc_value" record = Some value /\ value <> VNone) acc ->
    length out <= length acc + length records /\
    Forall (fun record => exists value,
                dict_get "ioc_value" record = Some value /\ value <> VNone) out.
Proof.
  induction records as [|record records IH]; intros acc out Hrun Hacc.
  - injection Hrun as <-. split; [simpl; lia | exact Hacc].
  - cbn [foldM] in Hrun.
    destruct (ioc_step matches acc record) as [acc'|e] eqn:Hstep; [|discriminate].
    cbn [rbind] in Hrun.
    destruct (ioc_step_invariant _ _ _ _ Hstep)
      as [-> | (added & value & -> & Hget & Hvalue)].
    + destruct (IH _ _ Hrun Hacc) as [Hlen Hall]. split; [simpl; lia | exact Hall].
    + destruct (IH _ _ Hrun) as [Hlen Hall].
      * apply Forall_app. split; [exact Hacc|].
        constructor; [now exists value | constructor].
      * rewrite length_app in Hlen. simpl in *. split; [lia | exact Hall].
Qed.

(** [X3] Whatever the rule and the matches are, the records
    [make_iocs_records] returns are no more than the configured templates
    and each carries an [ioc_value] that is not [None]. *)
Theorem make_iocs_records_values (self : IrisAlerter) (matches : list dict)
        (records : list value) (out : list dict) :
  py_iter (iocs self) = Ok records ->
  make_iocs_records self matches = Ok out ->
  length out <= length records /\
  Forall (fun record => exists value,
              dict_get "ioc_value" record = Some value /\ value <> VNone) out.
Proof.
  unfold make_iocs_records. intros -> Hrun. cbn [rbind] in Hrun.
  exact (ioc_loop_invariant matches records [] out Hrun (Forall_nil _)).
Qed.

(** [X4] A template without an [ioc_value] entry makes
    [make_iocs_records] raise [KeyError], also when the templates before it
    are well formed: the records built so far are not returned. *)
Theorem make_iocs_records_missing_key (self : IrisAlerter) (first : dict)
        (rest : list dict) (good : list dict) (paths : list string)
        (bad : dict) (more : list value) :
  iocs self = VList (map VDict good ++ VDict bad :: more) ->
  Forall2 (fun template path =>
             dict_get "ioc_value" template = Some (VStr path))
          good paths ->
  dict_get "ioc_value" bad = None ->
  make_iocs_records self (first :: rest) = Raise (KeyError "ioc_value").
Proof.
  intros Hiocs Hgood Hbad. unfold make_iocs_records.
  rewrite Hiocs.
  change (foldM (ioc_step (first :: rest))
                (map VDict good ++ VDict bad :: more) []
          = Raise (KeyError "ioc_value")).
  rewrite foldM_app.
  rewrite (make_iocs_loop first rest good paths Hgood []).
  cbn [rbind foldM py_copy first_match py_getitem]. now rewrite Hbad.
Qed.

(** [X5] With no match, [make_iocs_records] returns only when there is no
    template to process, and then returns no record; at a first template
    that is a mapping it raises [IndexError], before it reads the
    template's [ioc_value]. *)
Theorem make_iocs_records_needs_match (self : IrisAlerter)
        (records : list value) :
  py_iter (iocs self) = Ok records ->
  (forall out, make_iocs_records self [] = Ok out -> records = [] /\ out = []) /\
  (forall template more,
     records = VDict template :: more ->
     make_iocs_records self [] = Raise IndexError).
Proof.
  intros Hiter. unfold make_iocs_records. rewrite Hiter. cbn [rbind]. split.
  - intros out Hrun. destruct records as [|record more].
    + injection Hrun as <-. now split.
    + cbn [foldM] in Hrun.
      destruct record; cbn [py_copy first_match rbind] in Hrun; discriminate.
  - intros template more ->. reflexivity.
Qed.

Lemma dict_set_fresh (k : string) (v : value) (d : dict) :
  dict_get k d = None -> dict_set k v d = d ++ [(k, v)].
Proof.
  induction d as [|[k' v'] d IH]; simpl; intros H.
  - reflexivity.
  - destruct (String.eqb k k'); [discriminate | now rewrite (IH H)].
Qed.

Lemma dict_get_app_fresh (k k' : string) (v : value) (d : dict) :
  k <> k' -> dict_get k d = None -> dict_get k (d ++ [(k', v)]) = None.
Proof.
  intros Hne. induction d as [|[k2 v2] d IH]; simpl; intros H.
  - destruct (String.eqb_spec k k'); [contradiction | reflexivity].
  - destruct (String.eqb k k2); [discriminate | exact (IH H)].
Qed.

(** The loop of [make_alert_context_records] over entries with distinct
    keys, none of them in the accumulator. *)
Lemma context_loop (self : IrisAlerter) (first : dict) (rest : list dict)
      (items : list (string * value)) (fields : list string) :
  Forall2 (fun item field => snd item = VStr field) items fields ->
  NoDup (map fst items) ->
  forall acc,
    (forall key, In key (map fst items) -> dict_get key acc = None) ->
    foldM (fun alert_context '(key, value) =>
             let? first := first_match (first :: rest) in
             let? field_name := as_field_name value in
             let data := VStr (str (lookup_field self first field_name (VStr ""))) in
             Ok (dict_set key data alert_context))
          items acc
    = Ok (acc ++
          map (fun '(item, field) =>
                 (fst item, VStr (str (lookup_field self first field (VStr "")))))
              (combine items fields)).
Proof.
  induction 1 as [|[key value] field items fields Hfield _ IH];
    intros Hdup acc Hfresh.
  - simpl. now rewrite app_nil_r.
  - simpl in Hfield. subst value.
    cbn [foldM first_match as_field_name rbind combine map fst].
    inversion Hdup as [|? ? Hnotin Hdup']; subst.
    rewrite (dict_set_fresh key _ acc (Hfresh key (or_introl eq_refl))).
    rewrite (IH Hdup').
    + now rewrite <- app_assoc.
    + intros key' Hin. apply dict_get_app_fresh.
      * intros ->. exact (Hnotin Hin).
      * apply Hfresh. now right.
Qed.

(** [X6] Over a context mapping whose values are field names, and a
    non-empty match sequence, [make_alert_context_records] returns one
    entry per configured key, in order: the key with [str] of the value
    [lookup_field] resolves for its field, the empty string being the
    default. *)
Theorem make_alert_context_records_values (self : IrisAlerter) (first : dict)
        (rest : list dict) (items : list (string * value))
        (fields : list string) :
  alert_context self = VDict items ->
  Forall2 (fun item field => snd item = VStr field) items fields ->
  NoDup (map fst items) ->
  make_alert_context_records self (first :: rest)
  = Ok (map (fun '(item, field) =>
               (fst item, VStr (str (lookup_field self first field (VStr "")))))
            (combine items fields)).
Proof.
  intros Hcontext Hfields Hdup. unfold make_alert_context_records.
  rewrite Hcontext. cbn [py_items rbind].
  exact (context_loop self first rest items fields Hfields Hdup []
           (fun _ _ => eq_refl)).
Qed.

(** ** Further properties of the payloads *)

(** [make_alert] posts nothing and leaves the warning switch alone,
    whether it returns or raises. *)
Lemma make_alert_frame (self : IrisAlerter) (matches : list dict)
      (w w' : world) (r : result dict) :
  make_alert self matches w = (r, w') ->
  posted w' = posted w /\ warnings_disabled w' = warnings_disabled w.
Proof.
  unfold make_alert, bind, lift, info, ret. intros H.
  repeat match type of H with
         | context [match ?x with Ok _ => _ | Raise _ => _ end] =>
             destruct x
         | context [if ?b then _ else _] => destruct b
         end;
    injection H as _ <-; split; reflexivity.
Qed.

Lemma info_Ok_inv (line : string) (w w' : world) (u : unit) :
  info line w = (Ok u, w') ->
  logged w' = logged w ++ [line] /\ posted w' = posted w /\
  warnings_disabled w' = warnings_disabled w.
Proof. unfold info. intros H. injection H as _ <-. now repeat split. Qed.

(** What [make_alert] computes on the way to a payload. *)
Lemma make_alert_run (self : IrisAlerter) (matches : list dict)
      (w w' : world) (payload : dict) :
  make_alert self matches w = (Ok payload, w') ->
  exists title timestamp formatted_description formatted_note formatted_tags
         records context,
    (if truthy (overwrite_timestamp self)
     then let? first := first_match matches in
          Ok (dict_get_default "@timestamp" VNone first)
     else Ok (VStr now)) = Ok timestamp /\
    format_string_with_match (description self) matches = Ok formatted_description /\
    format_string_with_match (alert_note self) matches = Ok formatted_note /\
    format_string_with_match (alert_tags self) matches = Ok formatted_tags /\
    (if Str.str_in "{0[" (str (create_title matches))
     then format_string_with_match (create_title matches) matches
     else Ok (create_title matches)) = Ok title /\
    (truthy (iocs self) = true -> make_iocs_records self matches = Ok records) /\
    (truthy (alert_context self) = true ->
     make_alert_context_records self matches = Ok context) /\
    logged w' = logged w ++ [("IRIS Alert Tags: " ++ str formatted_tags)%string] /\
    payload =
      let base :=
        [("alert_title", title);
         ("alert_description", formatted_description);
         ("alert_source", alert_source self);
         ("alert_severity_id", alert_severity_id self);
         ("alert_status_id", alert_status_id self);
         ("alert_source_event_time", timestamp);
         ("alert_note", formatted_note);
         ("alert_tags", formatted_tags);
         ("alert_customer_id", customer_id self)] in
      let described :=
        if negb (truthy (description self))
        then dict_set "alert_description" (create_alert_body matches) base
        else base in
      let linked :=
        if truthy (alert_source_link self)
        then dict_set "alert_source_link" (alert_source_link self) described
        else described in
      let with_iocs :=
        if truthy (iocs self)
        then dict_set "alert_iocs" (VList (map VDict records)) linked
        else linked in
      if truthy (alert_context self)
      then dict_set "alert_context" (VDict context) with_iocs
      else with_iocs.
Proof.
  unfold make_alert. intros H.
  do 8 invert_bind H.
  apply ret_Ok_inv in H as [-> ->].
  apply lift_Ok_inv in Hstep as [Hts ->].
  apply lift_Ok_inv in Hstep0 as [Hd ->].
  apply lift_Ok_inv in Hstep1 as [Hn ->].
  apply lift_Ok_inv in Hstep2 as [Ht ->].
  apply info_Ok_inv in Hstep3 as (Hlog & _ & _).
  apply lift_Ok_inv in Hstep4 as [Htitle ->].
  destruct (truthy (iocs self)) eqn:Ei;
    destruct (truthy (alert_context self)) eqn:Ec;
    repeat match goal with
           | Hb : bind _ _ _ = (Ok _, _) |- _ => invert_bind Hb
           | Hr : ret _ _ = (Ok _, _) |- _ => apply ret_Ok_inv in Hr as [-> ->]
           | Hl : lift _ _ = (Ok _, _) |- _ => apply lift_Ok_inv in Hl as [? ->]
           end.
  all: do 5 eexists.
  1: do 2 eexists.
  2: eexists; exists [].
  3: exists []; eexists.
  4: exists [], [].
  all: repeat match goal with |- _ /\ _ => split end;
    try eassumption; try reflexivity; try discriminate;
    try (intros _; eassumption).
Qed.

(** The four conditions [make_alert] tests, by cases. *)
Ltac payload_cases self :=
  destruct (truthy (description self)), (truthy (alert_source_link self)),
    (truthy (iocs self)), (truthy (alert_context self)).

(** [X7] The payload [make_alert] builds for an alerter made by [__init__]
    carries the source, severity, status and customer that the rule, as the
    base class constructor leaves it, sets, and [ElastAlert2], 1, 2 and 1
    where that rule has no such option. *)
Theorem make_alert_defaults (rule : dict) (matches : list dict)
        (w w' : world) (payload : dict) :
  make_alert (init rule) matches w = (Ok payload, w') ->
  dict_get "alert_source" payload
    = Some (dict_get_default "iris_alert_source" (VStr "ElastAlert2")
                             (super_init rule)) /\
  dict_get "alert_severity_id" payload
    = Some (dict_get_default "iris_alert_severity_id" (VInt 1)
                             (super_init rule)) /\
  dict_get "alert_status_id" payload
    = Some (dict_get_default "iris_alert_status_id" (VInt 2)
                             (super_init rule)) /\
  dict_get "alert_customer_id" payload
    = Some (dict_get_default "iris_customer_id" (VInt 1) (super_init rule)).
Proof.
  intros H.
  destruct (make_alert_run _ _ _ _ _ H)
    as (title & timestamp & fd & fn & ft & records & context
        & _ & _ & _ & _ & _ & _ & _ & _ & ->).
  payload_cases (init rule); repeat split; reflexivity.
Qed.

(** [X8] The event time of the payload is the clock reading, unless the
    rule asks to overwrite the timestamp: then there is a first match and
    the event time is what it holds under [@timestamp], [None] when it
    holds nothing there. *)
Theorem make_alert_timestamp (self : IrisAlerter) (matches : list dict)
        (w w' : world) (payload : dict) :
  make_alert self matches w = (Ok payload, w') ->
  (truthy (overwrite_timestamp self) = false ->
   dict_get "alert_source_event_time" payload = Some (VStr now)) /\
  (truthy (overwrite_timestamp self) = true ->
   exists first rest,
     matches = first :: rest /\
     dict_get "alert_source_event_time" payload
       = Some (dict_get_default "@timestamp" VNone first)).
Proof.
  intros H.
  destruct (make_alert_run _ _ _ _ _ H)
    as (title & timestamp & fd & fn & ft & records & context
        & Hts & _ & _ & _ & _ & _ & _ & _ & ->).
  split; intros Hflag; rewrite Hflag in Hts.
  - injection Hts as <-. payload_cases self; reflexivity.
  - destruct matches as [|first rest]; [discriminate|].
    cbn [first_match rbind] in Hts. injection Hts as <-.
    exists first, rest. split; [reflexivity|].
    payload_cases self; reflexivity.
Qed.

(** [X9] The title of the payload is the title of the base class; when
    that title still holds the opening of a token, it is formatted against
    the matches first. *)
Theorem make_alert_title (self : IrisAlerter) (matches : list dict)
        (w w' : world) (payload : dict) :
  make_alert self matches w = (Ok payload, w') ->
  (Str.str_in "{0[" (str (create_title matches)) = false ->
   dict_get "alert_title" payload = Some (create_title matches)) /\
  (Str.str_in "{0[" (str (create_title matches)) = true ->
   exists formatted,
     format_string_with_match (create_title matches) matches = Ok (VStr formatted) /\
     dict_get "alert_title" payload = Some (VStr formatted)).
Proof.
  intros H.
  destruct (make_alert_run _ _ _ _ _ H)
    as (title & timestamp & fd & fn & ft & records & context
        & _ & _ & _ & _ & Htitle & _ & _ & _ & ->).
  split; intros Hopen; rewrite Hopen in Htitle.
  - injection Htitle as <-. payload_cases self; reflexivity.
  - assert (Hstr : exists formatted, title = VStr formatted).
    { unfold format_string_with_match in Htitle.
      destruct (create_title matches); try discriminate;
        destruct (Re.re_sub _ _); try discriminate;
        injection Htitle as <-; now eexists. }
    destruct Hstr as [formatted ->]. exists formatted.
    split; [exact Htitle|]. payload_cases self; reflexivity.
Qed.

(** [X10] When IOC templates are configured the payload holds, under
    [alert_iocs], the records [make_iocs_records] returns for the matches,
    an empty list when no template resolves; when a context mapping is
    configured it holds, under [alert_context], the mapping
    [make_alert_context_records] returns. *)
Theorem make_alert_records (self : IrisAlerter) (matches : list dict)
        (w w' : world) (payload : dict) :
  make_alert self matches w = (Ok payload, w') ->
  (truthy (iocs self) = true ->
   exists records,
     make_iocs_records self matches = Ok records /\
     dict_get "alert_iocs" payload = Some (VList (map VDict records))) /\
  (truthy (alert_context self) = true ->
   exists context,
     make_alert_context_records self matches = Ok context /\
     dict_get "alert_context" payload = Some (VDict context)).
Proof.
  intros H.
  destruct (make_alert_run _ _ _ _ _ H)
    as (title & timestamp & fd & fn & ft & records & context
        & _ & _ & _ & _ & _ & Hiocs & Hcontext & _ & ->).
  split; intros Hset.
  - exists records. split; [exact (Hiocs Hset)|]. rewrite Hset.
    destruct (truthy (description self)), (truthy (alert_source_link self)),
      (truthy (alert_context self)); reflexivity.
  - exists context. split; [exact (Hcontext Hset)|]. rewrite Hset.
    destruct (truthy (description self)), (truthy (alert_source_link self)),
      (truthy (iocs self)); reflexivity.
Qed.

(** [X11] [make_alert] posts no request and does not touch the warning
    switch, whether it returns or raises; when it returns it has logged one
    line, the formatted tags after [IRIS Alert Tags: ], which reads [None]
    when no tags are configured. *)
Theorem make_alert_effects (self : IrisAlerter) (matches : list dict)
        (w w' : world) (r : result dict) :
  make_alert self matches w = (r, w') ->
  posted w' = posted w /\
  warnings_disabled w' = warnings_disabled w /\
  (forall payload,
     r = Ok payload ->
     exists tags,
       format_string_with_match (alert_tags self) matches = Ok tags /\
       logged w' = logged w ++ [("IRIS Alert Tags: " ++ str tags)%string] /\
       (alert_tags self = VNone ->
        logged w' = logged w ++ ["IRIS Alert Tags: None"])).
Proof.
  intros H. destruct (make_alert_frame _ _ _ _ _ H) as [Hposted Hwarn].
  split; [exact Hposted | split; [exact Hwarn |]].
  intros payload ->.
  destruct (make_alert_run _ _ _ _ _ H)
    as (title & timestamp & fd & fn & ft & records & context
        & _ & _ & _ & Htags & _ & _ & _ & Hlog & _).
  exists ft. split; [exact Htags | split; [exact Hlog |]].
  intros Hunset. rewrite Hunset in Htags. cbn in Htags.
  injection Htags as <-. exact Hlog.
Qed.

(** [X12] The case payload [make_case] returns carries the customer, the
    rule name and the description as configured (the description is not
    formatted against the matches), a [case_soc_id] made of [SOC_] and the
    first six characters of the UUID text, and [case_template_id] exactly
    when one is configured; the IOC records are those of
    [make_iocs_records], and none when no template is configured. *)
Theorem make_case_payload (self : IrisAlerter) (matches : list dict)
        (case_data : dict) (records : list dict) :
  make_case self matches = Ok (case_data, records) ->
  dict_get "case_soc_id" case_data
    = Some (VStr ("SOC_" ++ String.substring 0 6 uuid4)) /\
  dict_get "case_customer" case_data = Some (customer_id self) /\
  dict_get "case_name" case_data
    = Some (dict_get_default "name" VNone (rule self)) /\
  dict_get "case_description" case_data = Some (description self) /\
  dict_has "case_template_id" case_data = truthy (case_template_id self) /\
  (truthy (case_template_id self) = true ->
   dict_get "case_template_id" case_data = Some (case_template_id self)) /\
  (truthy (iocs self) = false -> records = []) /\
  (truthy (iocs self) = true -> make_iocs_records self matches = Ok records).
Proof.
  unfold make_case. intros H.
  destruct (truthy (iocs self)) eqn:Ei.
  - destruct (make_iocs_records self matches) as [made|e]; [|discriminate].
    cbn [rbind] in H. injection H as <- <-.
    destruct (truthy (case_template_id self));
      repeat match goal with |- _ /\ _ => split end;
      try reflexivity; try discriminate.
  - cbn [rbind] in H. injection H as <- <-.
    destruct (truthy (case_template_id self));
      repeat match goal with |- _ /\ _ => split end;
      try reflexivity; try discriminate.
Qed.

(** ** Further properties of the submission *)

(** The payload [make_alert] returns, or the exception it raises, does not
    depend on the world it starts from. *)
Lemma make_alert_result (self : IrisAlerter) (matches : list dict)
      (w w0 : world) :
  fst (make_alert self matches w) = fst (make_alert self matches w0).
Proof.
  unfold make_alert, bind, lift, info, ret.
  repeat match goal with
         | |- context [match ?x with Ok _ => _ | Raise _ => _ end] =>
             destruct x
         | |- context [if ?b then _ else _] => destruct b
         end;
    reflexivity.
Qed.

(** A world with one more request posted, and with one more line logged. *)
Abbreviation with_request w req :=
  {| posted := posted w ++ [req];
     logged := logged w;
     warnings_disabled := warnings_disabled w |}.

Abbreviation with_line w line :=
  {| posted := posted w;
     logged := logged w ++ [line];
     warnings_disabled := warnings_disabled w |}.

(** [submit_alert] once the payload is built: one request, and the outcome
    read off the reply. *)
Lemma submit_alert_run (self : IrisAlerter) (verify : value)
      (matches : list dict) (w w1 : world) (payload : dict) :
  make_alert self matches w = (Ok payload, w1) ->
  submit_alert self verify matches w =
  match server (length (posted w1)) (alert_request self verify payload) with
  | Returned r =>
      if Z.eqb (status_code r) 200
      then (Ok tt, with_line (with_request w1 (alert_request self verify payload))
                             "Alert sent to Iris")
      else (Raise (EAException ("Cannot create a new alert: "
                                ++ Str.decimal (status_code r))),
            with_request w1 (alert_request self verify payload))
  | Failed msg =>
      (Raise (EAException ("Error posting alert to Iris: " ++ msg)),
       with_request w1 (alert_request self verify payload))
  end.
Proof.
  intros Hmake. unfold submit_alert. unfold bind at 1. rewrite Hmake.
  unfold bind, except_request, post, info, raise, ret.
  destruct (server (length (posted w1)) (alert_request self verify payload))
    as [r|msg]; [|reflexivity].
  destruct (Z.eqb (status_code r) 200); reflexivity.
Qed.

(** [alert] in alert mode from a world [w], once the payload is built. *)
Lemma alert_mode_run (self : IrisAlerter) (matches : list dict)
      (w : world) (payload : dict) :
  dispatch (type self) = Ok AlertSubmit ->
  fst (make_alert self matches w) = Ok payload ->
  exists w1,
    posted w1 = posted w /\
    (exists line, logged w1 = logged w ++ [line]) /\
    alert self matches w =
    match server (length (posted w)) (alert_request self (tls_verify self) payload) with
    | Returned r =>
        if Z.eqb (status_code r) 200
        then (Ok tt,
              with_line (with_request w1 (alert_request self (tls_verify self) payload))
                        "Alert sent to Iris")
        else (Raise (EAException ("Cannot create a new alert: "
                                  ++ Str.decimal (status_code r))),
              with_request w1 (alert_request self (tls_verify self) payload))
    | Failed msg =>
        (Raise (EAException ("Error posting alert to Iris: " ++ msg)),
         with_request w1 (alert_request self (tls_verify self) payload))
    end.
Proof.
  intros Hmode Hpayload.
  destruct (alert_prelude self w) as (w0 & Hpre & Hposted0 & Hlogged0).
  rewrite (make_alert_result self matches w w0) in Hpayload.
  destruct (make_alert self matches w0) as [r w1] eqn:Hmake.
  cbn [fst] in Hpayload. subst r.
  destruct (make_alert_frame _ _ _ _ _ Hmake) as [Hposted1 _].
  destruct (make_alert_run _ _ _ _ _ Hmake)
    as (title & timestamp & fd & fn & ft & records & context
        & _ & _ & _ & _ & _ & _ & _ & Hlog & _).
  exists w1. split; [congruence | split].
  - eexists. rewrite Hlog, Hlogged0. reflexivity.
  - unfold alert. unfold bind at 1. rewrite Hpre.
    unfold bind at 1. unfold lift at 1. rewrite Hmode.
    rewrite (submit_alert_run self (tls_verify self) matches w0 w1 payload Hmake).
    rewrite Hposted1, Hposted0. reflexivity.
Qed.

(** [X13] In alert mode, once the payload is built, [alert] posts exactly
    one request, the payload to the alert endpoint.  A 200 answer ends the
    call and [Alert sent to Iris] is logged; another status raises an
    [EAException] that carries the status, a transport failure one that
    carries its cause, and in both cases that line is not logged. *)
Theorem alert_mode_outcome (self : IrisAlerter) (matches : list dict)
        (w : world) (payload : dict) :
  dispatch (type self) = Ok AlertSubmit ->
  fst (make_alert self matches w) = Ok payload ->
  exists line,
    (forall r,
       server (length (posted w)) (alert_request self (tls_verify self) payload)
         = Returned r ->
       status_code r = 200%Z ->
       exists w',
         alert self matches w = (Ok tt, w') /\
         posted w' = posted w ++ [alert_request self (tls_verify self) payload] /\
         logged w' = logged w ++ [line; "Alert sent to Iris"]) /\
    (forall r,
       server (length (posted w)) (alert_request self (tls_verify self) payload)
         = Returned r ->
       status_code r <> 200%Z ->
       exists w',
         alert self matches w
           = (Raise (EAException ("Cannot create a new alert: "
                                  ++ Str.decimal (status_code r))), w') /\
         posted w' = posted w ++ [alert_request self (tls_verify self) payload] /\
         logged w' = logged w ++ [line]) /\
    (forall msg,
       server (length (posted w)) (alert_request self (tls_verify self) payload)
         = Failed msg ->
       exists w',
         alert self matches w
           = (Raise (EAException ("Error posting alert to Iris: " ++ msg)), w') /\
         posted w' = posted w ++ [alert_request self (tls_verify self) payload] /\
         logged w' = logged w ++ [line]).
Proof.
  intros Hmode Hpayload.
  destruct (alert_mode_run self matches w payload Hmode Hpayload)
    as (w1 & Hposted & [line Hlogged] & Hrun).
  exists line. split; [|split].
  - intros r Hreply Hstatus. rewrite Hreply, Hstatus in Hrun.
    eexists. split; [exact Hrun | split].
    + cbn [posted]. now rewrite Hposted.
    + cbn [logged]. rewrite Hlogged, <- app_assoc. reflexivity.
  - intros r Hreply Hstatus. rewrite Hreply in Hrun.
    apply Z.eqb_neq in Hstatus. rewrite Hstatus in Hrun.
    eexists. split; [exact Hrun | split].
    + cbn [posted]. now rewrite Hposted.
    + exact Hlogged.
  - intros msg Hreply. rewrite Hreply in Hrun.
    eexists. split; [exact Hrun | split].
    + cbn [posted]. now rewrite Hposted.
    + exact Hlogged.
Qed.

(** Splits a conjunction into its parts, and nothing else. *)
Ltac conjuncts := repeat match goal with |- _ /\ _ => split end.

(** One pass of the IOC loop, read off the reply. *)
Lemma attach_ioc_run (self : IrisAlerter) (verify case_id : value)
      (ioc : dict) (w : world) :
  attach_ioc self verify case_id ioc w =
  match server (length (posted w))
               (ioc_request self verify (dict_set "cid" case_id ioc)) with
  | Returned r =>
      if Z.eqb (status_code r) 200
      then (Ok tt,
            with_line (with_request w (ioc_request self verify
                                         (dict_set "cid" case_id ioc)))
                      "IOCs successfully added to the case")
      else (Raise (EAException ("Unable to add a new IOC to the case "
                                ++ str case_id)),
            with_request w (ioc_request self verify (dict_set "cid" case_id ioc)))
  | Failed msg =>
      (Raise (EAException ("Error when adding IOC to the case "
                           ++ str case_id ++ ": " ++ msg)),
       with_request w (ioc_request self verify (dict_set "cid" case_id ioc)))
  end.
Proof.
  unfold attach_ioc, bind, except_request, post, info, raise, ret.
  destruct (server (length (posted w))
                   (ioc_request self verify (dict_set "cid" case_id ioc)))
    as [r|msg]; [|reflexivity].
  destruct (Z.eqb (status_code r) 200); reflexivity.
Qed.

(** The IOC loop when the server accepts every record. *)
Lemma for_each_attach_all (self : IrisAlerter) (verify case_id : value) :
  forall (records : list dict) (w : world),
    (forall j ioc,
       nth_error records j = Some ioc ->
       exists r,
         server (length (posted w) + j)
                (ioc_request self verify (dict_set "cid" case_id ioc)) = Returned r /\
         status_code r = 200%Z) ->
    exists w',
      for_each (attach_ioc self verify case_id) records w = (Ok tt, w') /\
      posted w' =
        posted w ++
        map (fun ioc => ioc_request self verify (dict_set "cid" case_id ioc)) records /\
      logged w' =
        logged w ++
        repeat "IOCs successfully added to the case" (length records) /\
      warnings_disabled w' = warnings_disabled w.
Proof.
  induction records as [|ioc records IH]; intros w Hall.
  - exists w. cbn. now rewrite !app_nil_r.
  - destruct (Hall 0 ioc eq_refl) as (r & Hreply & Hstatus).
    rewrite Nat.add_0_r in Hreply.
    pose proof (attach_ioc_run self verify case_id ioc w) as Hrun.
    rewrite Hreply, Hstatus in Hrun. cbn [Z.eqb Pos.eqb] in Hrun.
    match type of Hrun with _ = (_, ?w1) => destruct (IH w1) as (w' & Hloop & Hp & Hl & Hw) end.
    + intros j ioc' Hnth. cbn [posted]. rewrite length_app, <- Nat.add_assoc.
      cbn [length Nat.add]. exact (Hall (S j) ioc' Hnth).
    + exists w'. cbn [for_each]. unfold bind at 1. rewrite Hrun.
      split; [exact Hloop | split; [|split]].
      * rewrite Hp. cbn [posted map]. now rewrite <- app_assoc.
      * rewrite Hl. cbn [logged length repeat]. now rewrite <- app_assoc.
      * rewrite Hw. reflexivity.
Qed.

(** The IOC loop stops at the first record whose request fails in
    transport. *)
Lemma for_each_attach_failed (self : IrisAlerter) (verify case_id : value)
      (msg : string) :
  forall (records : list dict) (i : nat) (w : world),
    i < length records ->
    (forall j ioc,
       j < i -> nth_error records j = Some ioc ->
       exists r,
         server (length (posted w) + j)
                (ioc_request self verify (dict_set "cid" case_id ioc)) = Returned r /\
         status_code r = 200%Z) ->
    (forall ioc,
       nth_error records i = Some ioc ->
       server (length (posted w) + i)
              (ioc_request self verify (dict_set "cid" case_id ioc)) = Failed msg) ->
    exists w',
      for_each (attach_ioc self verify case_id) records w
        = (Raise (EAException ("Error when adding IOC to the case "
                               ++ str case_id ++ ": " ++ msg)), w') /\
      posted w' =
        posted w ++
        map (fun ioc => ioc_request self verify (dict_set "cid" case_id ioc))
            (firstn (S i) records).
Proof.
  induction records as [|ioc records IH]; intros i w Hlen Hbefore Hat.
  - simpl in Hlen. lia.
  - pose proof (attach_ioc_run self verify case_id ioc w) as Hrun.
    destruct i as [|i].
    + pose proof (Hat ioc eq_refl) as Hreply.
      rewrite Nat.add_0_r in Hreply. rewrite Hreply in Hrun.
      eexists. cbn [for_each]. unfold bind. rewrite Hrun. now split.
    + destruct (Hbefore 0 ioc (Nat.lt_0_succ i) eq_refl) as (r & Hreply & Hstatus).
      rewrite Nat.add_0_r in Hreply.
      rewrite Hreply, Hstatus in Hrun. cbn [Z.eqb Pos.eqb] in Hrun.
      match type of Hrun with
      | _ = (_, ?w1) => destruct (IH i w1) as (w' & Hloop & Hposted)
      end.
      * simpl in Hlen. lia.
      * intros j ioc' Hj Hnth. cbn [posted].
        rewrite length_app, <- Nat.add_assoc. cbn [length Nat.add].
        apply (Hbefore (S j) ioc'); [lia | exact Hnth].
      * intros ioc' Hnth. cbn [posted].
        rewrite length_app, <- Nat.add_assoc. cbn [length Nat.add].
        exact (Hat ioc' Hnth).
      * exists w'. cbn [for_each]. unfold bind at 1. rewrite Hrun. split.
        -- exact Hloop.
        -- rewrite Hposted. cbn [posted]. now rewrite <- app_assoc.
Qed.

(** Whatever the server answers, the IOC loop posts the requests of a
    prefix of the records, in order, all of them when it returns, and it
    raises nothing but [EAException]. *)
Lemma for_each_attach_prefix (self : IrisAlerter) (verify case_id : value) :
  forall (records : list dict) (w w' : world) (r : result unit),
    for_each (attach_ioc self verify case_id) records w = (r, w') ->
    exists k,
      k <= length records /\
      posted w' =
        posted w ++
        map (fun ioc => ioc_request self verify (dict_set "cid" case_id ioc))
            (firstn k records) /\
      warnings_disabled w' = warnings_disabled w /\
      (r = Ok tt -> k = length records) /\
      (r = Ok tt \/ exists msg, r = Raise (EAException msg)).
Proof.
  induction records as [|ioc records IH]; intros w w' r Hrun.
  - cbn in Hrun. injection Hrun as <- <-. exists 0.
    cbn. rewrite app_nil_r. conjuncts; auto.
  - cbn [for_each] in Hrun. unfold bind at 1 in Hrun.
    rewrite attach_ioc_run in Hrun.
    destruct (server (length (posted w))
                     (ioc_request self verify (dict_set "cid" case_id ioc)))
      as [resp|msg].
    + destruct (Z.eqb (status_code resp) 200).
      * destruct (IH _ _ _ Hrun) as (k & Hk & Hp & Hw & Hall & Hexn).
        exists (S k). cbn [length firstn map posted warnings_disabled] in *.
        conjuncts.
        -- lia.
        -- rewrite Hp, <- app_assoc. reflexivity.
        -- exact Hw.
        -- intros Hok. now rewrite (Hall Hok).
        -- exact Hexn.
      * injection Hrun as <- <-. exists 1. cbn [length firstn map posted].
        conjuncts; [lia | reflexivity | reflexivity | discriminate
                   | right; now eexists].
    + injection Hrun as <- <-. exists 1. cbn [length firstn map posted].
      conjuncts; [lia | reflexivity | reflexivity | discriminate
                 | right; now eexists].
Qed.

(** The steps of [alert] before the dispatch switch the warnings off when
    the rule ignores SSL errors, and do nothing else. *)
Lemma alert_prelude_warnings (self : IrisAlerter) (w : world) :
  exists w0,
    (if truthy (ignore_ssl_errors self) then disable_warnings else ret tt) w
      = (Ok tt, w0) /\
    posted w0 = posted w /\ logged w0 = logged w /\
    warnings_disabled w0
      = (warnings_disabled w || truthy (ignore_ssl_errors self))%bool.
Proof.
  destruct (truthy (ignore_ssl_errors self)); eexists; conjuncts;
    try reflexivity; cbn.
  - now rewrite orb_true_r.
  - now rewrite orb_false_r.
Qed.

(** What the handler around the case creation makes of an exception. *)
Abbreviation case_handler e :=
  match e with
  | RequestException msg => EAException ("Error posting the case to Iris: " ++ msg)
  | _ => e
  end.

(** [alert] in case mode, once the case payload is built, read off the
    reply to the case creation. *)
Lemma case_mode_run (self : IrisAlerter) (matches : list dict) (w : world)
      (case_data : dict) (records : list dict) :
  dispatch (type self) = Ok CaseSubmit ->
  make_case self matches = Ok (case_data, records) ->
  exists w0,
    posted w0 = posted w /\ logged w0 = logged w /\
    warnings_disabled w0
      = (warnings_disabled w || truthy (ignore_ssl_errors self))%bool /\
    alert self matches w =
    match server (length (posted w))
                 (case_request self (tls_verify self) case_data) with
    | Failed msg =>
        (Raise (EAException ("Error posting the case to Iris: " ++ msg)),
         with_request w0 (case_request self (tls_verify self) case_data))
    | Returned r =>
        if Z.eqb (status_code r) 200
        then
          match (let? body := json r in
                 let? data := py_get body "data" (VStr "") in
                 py_get data "case_id" VNone) with
          | Raise e =>
              (Raise (case_handler e),
               with_request w0 (case_request self (tls_verify self) case_data))
          | Ok case_id =>
              match for_each (attach_ioc self (tls_verify self) case_id) records
                      (with_request w0 (case_request self (tls_verify self) case_data))
              with
              | (Ok _, w2) => (Ok tt, with_line w2 "Case successfully created in Iris")
              | (Raise e, w2) => (Raise (case_handler e), w2)
              end
          end
        else
          (Raise (EAException ("Cannot create a new case: "
                               ++ Str.decimal (status_code r))),
           with_request w0 (case_request self (tls_verify self) case_data))
    end.
Proof.
  intros Hmode Hcase.
  destruct (alert_prelude_warnings self w) as (w0 & Hpre & Hposted & Hlogged & Hwarn).
  exists w0. conjuncts; try assumption.
  unfold alert. unfold bind at 1. rewrite Hpre.
  unfold bind at 1. unfold lift at 1. rewrite Hmode.
  unfold submit_case. unfold bind at 1. unfold lift at 1. rewrite Hcase.
  unfold bind at 1. unfold except_request.
  unfold bind at 1. unfold post at 1. rewrite Hposted.
  destruct (server (length (posted w))
                   (case_request self (tls_verify self) case_data)) as [r|msg];
    [|reflexivity].
  destruct (Z.eqb (status_code r) 200); [|reflexivity].
  unfold bind at 1. unfold lift at 1.
  destruct (json r) as [body|e]; [|destruct e; reflexivity].
  unfold bind at 1. unfold lift at 1. cbn [rbind].
  destruct (py_get body "data" (VStr "")) as [data|e]; [|destruct e; reflexivity].
  unfold bind at 1. unfold lift at 1. cbn [rbind].
  destruct (py_get data "case_id" VNone) as [case_id|e]; [|destruct e; reflexivity].
  destruct (for_each (attach_ioc self (tls_verify self) case_id) records _)
    as [[[]|e] w2]; [reflexivity | destruct e; reflexivity].
Qed.

(** [X14] In case mode, when the case creation does not go through,
    [alert] raises an [EAException], has posted the case request only and
    has logged nothing: a status other than 200 is named in the message, a
    transport failure and a failure to decode the body that the client
    raises as a request exception both surface as an error posting the
    case. *)
Theorem case_creation_failure (self : IrisAlerter) (matches : list dict)
        (w : world) (case_data : dict) (records : list dict) :
  dispatch (type self) = Ok CaseSubmit ->
  make_case self matches = Ok (case_data, records) ->
  (forall r,
     server (length (posted w)) (case_request self (tls_verify self) case_data)
       = Returned r ->
     status_code r <> 200%Z ->
     exists w',
       alert self matches w
         = (Raise (EAException ("Cannot create a new case: "
                                ++ Str.decimal (status_code r))), w') /\
       posted w' = posted w ++ [case_request self (tls_verify self) case_data] /\
       logged w' = logged w) /\
  (forall msg,
     server (length (posted w)) (case_request self (tls_verify self) case_data)
       = Failed msg ->
     exists w',
       alert self matches w
         = (Raise (EAException ("Error posting the case to Iris: " ++ msg)), w') /\
       posted w' = posted w ++ [case_request self (tls_verify self) case_data] /\
       logged w' = logged w) /\
  (forall r msg,
     server (length (posted w)) (case_request self (tls_verify self) case_data)
       = Returned r ->
     status_code r = 200%Z ->
     json r = Raise (RequestException msg) ->
     exists w',
       alert self matches w
         = (Raise (EAException ("Error posting the case to Iris: " ++ msg)), w') /\
       posted w' = posted w ++ [case_request self (tls_verify self) case_data] /\
       logged w' = logged w).
Proof.
  intros Hmode Hcase.
  destruct (case_mode_run self matches w case_data records Hmode Hcase)
    as (w0 & Hposted & Hlogged & _ & Hrun).
  split; [|split].
  - intros r Hreply Hstatus. rewrite Hreply in Hrun.
    apply Z.eqb_neq in Hstatus. rewrite Hstatus in Hrun.
    eexists. split; [exact Hrun | split]; cbn; congruence.
  - intros msg Hreply. rewrite Hreply in Hrun.
    eexists. split; [exact Hrun | split]; cbn; congruence.
  - intros r msg Hreply Hstatus Hjson. rewrite Hreply, Hstatus, Hjson in Hrun.
    eexists. split; [exact Hrun | split]; cbn; congruence.
Qed.

(** [X15] In case mode, when the case is created and every IOC record is
    accepted, [alert] returns; it has posted the case request and then one
    attach request per record, in record order, each the record with the
    case id merged in under [cid]; it has logged one line per record and
    then [Case successfully created in Iris]. *)
Theorem case_mode_success (self : IrisAlerter) (matches : list dict)
        (w : world) (case_data : dict) (records : list dict)
        (body data case_id : value) :
  dispatch (type self) = Ok CaseSubmit ->
  make_case self matches = Ok (case_data, records) ->
  server (length (posted w)) (case_request self (tls_verify self) case_data)
    = Returned {| status_code := 200; json := Ok body |} ->
  py_get body "data" (VStr "") = Ok data ->
  py_get data "case_id" VNone = Ok case_id ->
  (forall j ioc,
     nth_error records j = Some ioc ->
     exists r,
       server (length (posted w) + 1 + j)
              (ioc_request self (tls_verify self) (dict_set "cid" case_id ioc))
         = Returned r /\
       status_code r = 200%Z) ->
  exists w',
    alert self matches w = (Ok tt, w') /\
    posted w' =
      posted w ++
      case_request self (tls_verify self) case_data ::
      map (fun ioc => ioc_request self (tls_verify self) (dict_set "cid" case_id ioc))
          records /\
    logged w' =
      logged w ++
      repeat "IOCs successfully added to the case" (length records) ++
      ["Case successfully created in Iris"].
Proof.
  intros Hmode Hcase Hreply Hdata Hid Hall.
  destruct (case_mode_run self matches w case_data records Hmode Hcase)
    as (w0 & Hposted & Hlogged & _ & Hrun).
  rewrite Hreply in Hrun. cbn [status_code json Z.eqb Pos.eqb rbind] in Hrun.
  rewrite Hdata in Hrun. cbn [rbind] in Hrun. rewrite Hid in Hrun.
  destruct (for_each_attach_all self (tls_verify self) case_id records
              (with_request w0 (case_request self (tls_verify self) case_data)))
    as (w2 & Hloop & Hp & Hl & _).
  { intros j ioc Hnth. cbn [posted]. rewrite length_app, Hposted.
    cbn [length]. exact (Hall j ioc Hnth). }
  rewrite Hloop in Hrun. eexists. split; [exact Hrun | split].
  - cbn [posted]. rewrite Hp. cbn [posted].
    rewrite Hposted, <- app_assoc. reflexivity.
  - cbn [logged]. rewrite Hl. cbn [logged].
    rewrite Hlogged, <- app_assoc. reflexivity.
Qed.

(** [X16] In case mode, a transport failure on the attach request of the
    i-th IOC record, after the records before it were accepted, ends the
    invocation with an [EAException] that names the case id and the cause;
    the handler around the case creation does not wrap it again, and no
    request is posted for the records after i. *)
Theorem ioc_transport_failure (self : IrisAlerter) (matches : list dict)
        (w : world) (case_data : dict) (records : list dict)
        (body data case_id : value) (i : nat) (msg : string) :
  dispatch (type self) = Ok CaseSubmit ->
  make_case self matches = Ok (case_data, records) ->
  server (length (posted w)) (case_request self (tls_verify self) case_data)
    = Returned {| status_code := 200; json := Ok body |} ->
  py_get body "data" (VStr "") = Ok data ->
  py_get data "case_id" VNone = Ok case_id ->
  i < length records ->
  (forall j ioc,
     j < i -> nth_error records j = Some ioc ->
     exists r,
       server (length (posted w) + 1 + j)
              (ioc_request self (tls_verify self) (dict_set "cid" case_id ioc))
         = Returned r /\
       status_code r = 200%Z) ->
  (forall ioc,
     nth_error records i = Some ioc ->
     server (length (posted w) + 1 + i)
            (ioc_request self (tls_verify self) (dict_set "cid" case_id ioc))
       = Failed msg) ->
  exists w',
    alert self matches w
      = (Raise (EAException ("Error when adding IOC to the case "
                             ++ str case_id ++ ": " ++ msg)), w') /\
    posted w' =
      posted w ++
      case_request self (tls_verify self) case_data ::
      map (fun ioc => ioc_request self (tls_verify self) (dict_set "cid" case_id ioc))
          (firstn (S i) records).
Proof.
  intros Hmode Hcase Hreply Hdata Hid Hlen Hbefore Hat.
  destruct (case_mode_run self matches w case_data records Hmode Hcase)
    as (w0 & Hposted & Hlogged & _ & Hrun).
  rewrite Hreply in Hrun. cbn [status_code json Z.eqb Pos.eqb rbind] in Hrun.
  rewrite Hdata in Hrun. cbn [rbind] in Hrun. rewrite Hid in Hrun.
  destruct (for_each_attach_failed self (tls_verify self) case_id msg records i
              (with_request w0 (case_request self (tls_verify self) case_data))
              Hlen)
    as (w2 & Hloop & Hp).
  { intros j ioc Hj Hnth. cbn [posted]. rewrite length_app, Hposted.
    cbn [length]. exact (Hbefore j ioc Hj Hnth). }
  { intros ioc Hnth. cbn [posted]. rewrite length_app, Hposted.
    cbn [length]. exact (Hat ioc Hnth). }
  rewrite Hloop in Hrun. eexists. split; [exact Hrun|].
  rewrite Hp. cbn [posted]. rewrite Hposted, <- app_assoc. reflexivity.
Qed.

(** [X17] In case mode, once the case payload is built and whatever the
    server answers, the requests [alert] posts are the case request
    followed by the attach requests of a prefix of the IOC records, in
    record order and all with one case id; when [alert] returns, every
    record was attached. *)
Theorem case_mode_requests_in_order (self : IrisAlerter) (matches : list dict)
        (w w' : world) (case_data : dict) (records : list dict)
        (r : result unit) :
  dispatch (type self) = Ok CaseSubmit ->
  make_case self matches = Ok (case_data, records) ->
  alert self matches w = (r, w') ->
  exists case_id k,
    k <= length records /\
    posted w' =
      posted w ++
      case_request self (tls_verify self) case_data ::
      map (fun ioc => ioc_request self (tls_verify self) (dict_set "cid" case_id ioc))
          (firstn k records) /\
    (r = Ok tt -> k = length records).
Proof.
  intros Hmode Hcase Halert.
  destruct (case_mode_run self matches w case_data records Hmode Hcase)
    as (w0 & Hposted & _ & _ & Hrun).
  rewrite Halert in Hrun.
  assert (Hnone : forall e w1,
             (r, w') = (Raise e,
                        with_request w1 (case_request self (tls_verify self) case_data)) ->
             posted w1 = posted w ->
             exists case_id k,
               k <= length records /\
               posted w' =
                 posted w ++
                 case_request self (tls_verify self) case_data ::
                 map (fun ioc => ioc_request self (tls_verify self)
                                   (dict_set "cid" case_id ioc))
                     (firstn k records) /\
               (r = Ok tt -> k = length records)).
  { intros e w1 Heq Hp. injection Heq as -> ->.
    exists VNone, 0. conjuncts; [lia | cbn; now rewrite Hp | discriminate]. }
  destruct (server (length (posted w))
                   (case_request self (tls_verify self) case_data)) as [resp|msg];
    [|exact (Hnone _ _ Hrun Hposted)].
  destruct (Z.eqb (status_code resp) 200); [|exact (Hnone _ _ Hrun Hposted)].
  destruct (let? body := json resp in
            let? data := py_get body "data" (VStr "") in
            py_get data "case_id" VNone) as [case_id|e];
    [|exact (Hnone _ _ Hrun Hposted)].
  destruct (for_each (attach_ioc self (tls_verify self) case_id) records _)
    as [loop w2] eqn:Hloop.
  destruct (for_each_attach_prefix _ _ _ _ _ _ _ Hloop)
    as (k & Hk & Hp & _ & Hall & _).
  exists case_id, k.
  assert (Hw' : posted w' = posted w2)
    by (destruct loop as [[]|e]; injection Hrun as _ ->; reflexivity).
  conjuncts.
  - exact Hk.
  - rewrite Hw', Hp. cbn [posted]. rewrite Hposted, <- app_assoc. reflexivity.
  - intros ->. destruct loop as [[]|e]; [now apply Hall | discriminate].
Qed.

(** [X18] When building the payload raises, [alert] raises the same
    exception and posts no request: in alert mode for [make_alert], in
    case mode for [make_case], neither call being inside the handler for
    request exceptions. *)
Theorem build_failure_posts_nothing (self : IrisAlerter) (matches : list dict)
        (w : world) (e : exn) :
  (dispatch (type self) = Ok AlertSubmit ->
   fst (make_alert self matches w) = Raise e ->
   exists w',
     alert self matches w = (Raise e, w') /\ posted w' = posted w) /\
  (dispatch (type self) = Ok CaseSubmit ->
   make_case self matches = Raise e ->
   exists w',
     alert self matches w = (Raise e, w') /\
     posted w' = posted w /\ logged w' = logged w).
Proof.
  destruct (alert_prelude self w) as (w0 & Hpre & Hposted & Hlogged).
  split; intros Hmode Hbuild.
  - rewrite (make_alert_result self matches w w0) in Hbuild.
    destruct (make_alert self matches w0) as [built w1] eqn:Hmake.
    cbn [fst] in Hbuild. subst built.
    destruct (make_alert_frame _ _ _ _ _ Hmake) as [Hposted1 _].
    exists w1. split; [|congruence].
    unfold alert. unfold bind at 1. rewrite Hpre.
    unfold bind at 1. unfold lift at 1. rewrite Hmode.
    unfold submit_alert. unfold bind at 1. now rewrite Hmake.
  - exists w0. split; [|now split].
    unfold alert. unfold bind at 1. rewrite Hpre.
    unfold bind at 1. unfold lift at 1. rewrite Hmode.
    unfold submit_case. unfold bind at 1. unfold lift at 1. now rewrite Hbuild.
Qed.

(** The case-mode requests together with the warning switch, whatever
    the server answers. *)
Lemma case_mode_requests_frame (self : IrisAlerter) (matches : list dict)
      (w w' : world) (case_data : dict) (records : list dict)
      (r : result unit) :
  dispatch (type self) = Ok CaseSubmit ->
  make_case self matches = Ok (case_data, records) ->
  alert self matches w = (r, w') ->
  warnings_disabled w'
    = (warnings_disabled w || truthy (ignore_ssl_errors self))%bool /\
  exists case_id k,
    posted w' =
      posted w ++
      case_request self (tls_verify self) case_data ::
      map (fun ioc => ioc_request self (tls_verify self) (dict_set "cid" case_id ioc))
          (firstn k records).
Proof.
  intros Hmode Hcase Halert.
  destruct (case_mode_run self matches w case_data records Hmode Hcase)
    as (w0 & Hposted & _ & Hwarn & Hrun).
  rewrite Halert in Hrun.
  assert (Hnone : forall e w1,
             (r, w') = (Raise e,
                        with_request w1 (case_request self (tls_verify self) case_data)) ->
             posted w1 = posted w ->
             warnings_disabled w1
               = (warnings_disabled w || truthy (ignore_ssl_errors self))%bool ->
             warnings_disabled w'
               = (warnings_disabled w || truthy (ignore_ssl_errors self))%bool /\
             exists case_id k,
               posted w' =
                 posted w ++
                 case_request self (tls_verify self) case_data ::
                 map (fun ioc => ioc_request self (tls_verify self)
                                   (dict_set "cid" case_id ioc))
                     (firstn k records)).
  { intros e w1 Heq Hp Hw. injection Heq as -> ->. split; [exact Hw|].
    exists VNone, 0. cbn. now rewrite Hp. }
  destruct (server (length (posted w))
                   (case_request self (tls_verify self) case_data)) as [resp|msg];
    [|exact (Hnone _ _ Hrun Hposted Hwarn)].
  destruct (Z.eqb (status_code resp) 200); [|exact (Hnone _ _ Hrun Hposted Hwarn)].
  destruct (let? body := json resp in
            let? data := py_get body "data" (VStr "") in
            py_get data "case_id" VNone) as [case_id|e];
    [|exact (Hnone _ _ Hrun Hposted Hwarn)].
  destruct (for_each (attach_ioc self (tls_verify self) case_id) records _)
    as [loop w2] eqn:Hloop.
  destruct (for_each_attach_prefix _ _ _ _ _ _ _ Hloop)
    as (k & _ & Hp & Hw & _ & _).
  assert (Hw' : posted w' = posted w2 /\ warnings_disabled w' = warnings_disabled w2)
    by (destruct loop as [[]|e]; injection Hrun as _ ->; split; reflexivity).
  destruct Hw' as [Hp' Hw']. split.
  - rewrite Hw', Hw. exact Hwarn.
  - exists case_id, k. rewrite Hp', Hp. cbn [posted].
    rewrite Hposted, <- app_assoc. reflexivity.
Qed.

(** Whatever the rule, the matches and the server are: what [alert] does
    to the warning switch and which requests it adds. *)
Lemma alert_any (self : IrisAlerter) (matches : list dict) (w w' : world)
      (r : result unit) :
  alert self matches w = (r, w') ->
  warnings_disabled w'
    = (warnings_disabled w || truthy (ignore_ssl_errors self))%bool /\
  exists new,
    posted w' = posted w ++ new /\
    Forall (fun req =>
              post_headers req = headers self /\
              post_verify req = tls_verify self /\
              (post_url req = (url self ++ "/alerts/add")%string \/
               post_url req = (url self ++ "/manage/cases/add")%string \/
               post_url req = (url self ++ "/case/ioc/add")%string))
           new.
Proof.
  intros Halert.
  destruct (alert_prelude_warnings self w) as (w0 & Hpre & Hposted & Hlogged & Hwarn).
  assert (Hstay : forall out, (r, w') = (out, w0) ->
            warnings_disabled w'
              = (warnings_disabled w || truthy (ignore_ssl_errors self))%bool /\
            exists new,
              posted w' = posted w ++ new /\
              Forall (fun req =>
                        post_headers req = headers self /\
                        post_verify req = tls_verify self /\
                        (post_url req = (url self ++ "/alerts/add")%string \/
                         post_url req = (url self ++ "/manage/cases/add")%string \/
                         post_url req = (url self ++ "/case/ioc/add")%string))
                     new).
  { intros out Heq. injection Heq as -> ->. split; [exact Hwarn|].
    exists []. split; [now rewrite app_nil_r | constructor]. }
  destruct (dispatch (type self)) as [[| |]|e] eqn:Hmode.
  - (* alert mode *)
    unfold alert in Halert. unfold bind at 1 in Halert. rewrite Hpre in Halert.
    unfold bind at 1 in Halert. unfold lift at 1 in Halert. rewrite Hmode in Halert.
    destruct (make_alert self matches w0) as [[payload|e] w1] eqn:Hmake.
    + rewrite (submit_alert_run self _ matches w0 w1 payload Hmake) in Halert.
      destruct (make_alert_frame _ _ _ _ _ Hmake) as [Hposted1 Hwarn1].
      assert (Hone : forall out w2,
                (r, w') = (out, w2) ->
                posted w2 = posted w1 ++ [alert_request self (tls_verify self) payload] ->
                warnings_disabled w2 = warnings_disabled w1 ->
                warnings_disabled w'
                  = (warnings_disabled w || truthy (ignore_ssl_errors self))%bool /\
                exists new,
                  posted w' = posted w ++ new /\
                  Forall (fun req =>
                            post_headers req = headers self /\
                            post_verify req = tls_verify self /\
                            (post_url req = (url self ++ "/alerts/add")%string \/
                             post_url req = (url self ++ "/manage/cases/add")%string \/
                             post_url req = (url self ++ "/case/ioc/add")%string))
                         new).
      { intros out w2 Heq Hp Hw. injection Heq as -> ->. split; [congruence|].
        eexists. split; [rewrite Hp, Hposted1, Hposted; reflexivity|].
        constructor; [|constructor]. cbn. auto. }
      destruct (server (length (posted w1))
                       (alert_request self (tls_verify self) payload)) as [resp|msg];
        [destruct (Z.eqb (status_code resp) 200)|];
        exact (Hone _ _ (eq_sym Halert) eq_refl eq_refl).
    + unfold submit_alert in Halert. unfold bind at 1 in Halert.
      rewrite Hmake in Halert. injection Halert as <- <-.
      destruct (make_alert_frame _ _ _ _ _ Hmake) as [Hposted1 Hwarn1].
      split; [congruence|]. exists [].
      split; [rewrite app_nil_r; congruence | constructor].
  - (* case mode *)
    destruct (make_case self matches) as [[case_data records]|e] eqn:Hcase.
    + destruct (case_mode_requests_frame self matches w w' case_data records r
                  Hmode Hcase Halert) as (Hw & case_id & k & Hp).
      split; [exact Hw|]. eexists. split; [exact Hp|].
      constructor; [cbn; auto|].
      apply Forall_forall. intros req Hin.
      apply in_map_iff in Hin as (ioc & <- & _). cbn. auto.
    + apply (Hstay (Raise e)). rewrite <- Halert.
      unfold alert. unfold bind at 1. rewrite Hpre.
      unfold bind at 1. unfold lift at 1. rewrite Hmode.
      unfold submit_case. unfold bind at 1. unfold lift at 1. now rewrite Hcase.
  - (* neither mode *)
    apply (Hstay (Ok tt)). rewrite <- Halert.
    unfold alert. unfold bind at 1. rewrite Hpre.
    unfold bind at 1. unfold lift at 1. now rewrite Hmode.
  - (* the mode cannot be searched *)
    apply (Hstay (Raise e)). rewrite <- Halert.
    unfold alert. unfold bind at 1. rewrite Hpre.
    unfold bind at 1. unfold lift at 1. now rewrite Hmode.
Qed.

(** [X19] Whatever happens during the call, [alert] leaves the client
    warnings switched off exactly when they were off before or the rule
    ignores SSL errors: it switches them off and never back on. *)
Theorem alert_warnings (self : IrisAlerter) (matches : list dict)
        (w w' : world) (r : result unit) :
  alert self matches w = (r, w') ->
  warnings_disabled w'
    = (warnings_disabled w || truthy (ignore_ssl_errors self))%bool.
Proof.
  intros Halert. exact (proj1 (alert_any self matches w w' r Halert)).
Qed.

(** [X20] Whatever the rule, the matches and the server are, [alert] keeps
    the requests posted before and adds requests that all carry the
    alerter's headers, go to one of its three endpoints and have, as
    [verify], the CA certificate when one is configured and otherwise
    whether SSL errors are not ignored. *)
Theorem alert_requests_settings (self : IrisAlerter) (matches : list dict)
        (w w' : world) (r : result unit) :
  alert self matches w = (r, w') ->
  exists new,
    posted w' = posted w ++ new /\
    Forall (fun req =>
              post_headers req = headers self /\
              post_verify req
                = (if truthy (ca_cert self) then ca_cert self
                   else VBool (negb (truthy (ignore_ssl_errors self)))) /\
              (post_url req = (url self ++ "/alerts/add")%string \/
               post_url req = (url self ++ "/manage/cases/add")%string \/
               post_url req = (url self ++ "/case/ioc/add")%string))
           new.
Proof.
  intros Halert. exact (proj2 (alert_any self matches w w' r Halert)).
Qed.

(** [X21] In case mode, a 200 answer to the case creation whose body is
    not a JSON object, or is one whose [data] entry is not an object (a
    null, say), makes [alert] raise an [AttributeError] for the missing
    [get], not an [EAException]; only the case request has been posted. *)
Theorem case_body_not_object (self : IrisAlerter) (matches : list dict)
        (w : world) (case_data : dict) (records : list dict) (body : value) :
  dispatch (type self) = Ok CaseSubmit ->
  make_case self matches = Ok (case_data, records) ->
  server (length (posted w)) (case_request self (tls_verify self) case_data)
    = Returned {| status_code := 200; json := Ok body |} ->
  ((forall entries, body <> VDict entries) ->
   exists w',
     alert self matches w = (Raise (AttributeError (type_name body) "get"), w') /\
     posted w' = posted w ++ [case_request self (tls_verify self) case_data]) /\
  (forall entries data,
     body = VDict entries ->
     dict_get "data" entries = Some data ->
     (forall fields, data <> VDict fields) ->
     exists w',
       alert self matches w = (Raise (AttributeError (type_name data) "get"), w') /\
       posted w' = posted w ++ [case_request self (tls_verify self) case_data]).
Proof.
  intros Hmode Hcase Hreply.
  destruct (case_mode_run self matches w case_data records Hmode Hcase)
    as (w0 & Hposted & _ & _ & Hrun).
  rewrite Hreply in Hrun. cbn [status_code json Z.eqb Pos.eqb rbind] in Hrun.
  split.
  - intros Hbody.
    assert (Hget : py_get body "data" (VStr "")
                   = Raise (AttributeError (type_name body) "get")).
    { destruct body; try reflexivity. now elim (Hbody d). }
    rewrite Hget in Hrun. cbn [rbind] in Hrun.
    eexists. split; [exact Hrun | cbn; now rewrite Hposted].
  - intros entries data -> Hdata Hnot.
    assert (Hget : py_get data "case_id" VNone
                   = Raise (AttributeError (type_name data) "get")).
    { destruct data; try reflexivity. now elim (Hnot d). }
    cbn [py_get] in Hrun. unfold dict_get_default in Hrun.
    rewrite Hdata in Hrun. cbn [rbind] in Hrun. rewrite Hget in Hrun.
    eexists. split; [exact Hrun | cbn; now rewrite Hposted].
Qed.

(** [X22] For an alerter made by [__init__] from a rule, every request
    [alert] posts goes to a path under [https://] followed by [str] of
    [iris_host], with the JSON content type and [iris_api_token] as bearer
    credential, both options read from the rule as the base class
    constructor leaves it. *)
Theorem alert_requests_of_rule (rule : dict) (matches : list dict)
        (w w' : world) (r : result unit) :
  alert (init rule) matches w = (r, w') ->
  exists new,
    posted w' = posted w ++ new /\
    Forall (fun req =>
              (exists path,
                 post_url req
                 = ("https://"
                      ++ str (dict_get_default "iris_host" VNone (super_init rule))
                      ++ path)%string) /\
              post_headers req
              = [("Content-Type", VStr "application/json");
                 ("Authorization",
                  VStr ("Bearer "
                        ++ str (dict_get_default "iris_api_token" VNone
                                                 (super_init rule))))])
           new.
Proof.
  intros Halert.
  destruct (alert_any (init rule) matches w w' r Halert) as [_ (new & Hposted & Hall)].
  exists new. split; [exact Hposted|].
  eapply Forall_impl; [|exact Hall].
  intros req (Hheaders & _ & Hurl). split; [|exact Hheaders].
  cbn [url init] in Hurl.
  destruct Hurl as [Hurl | [Hurl | Hurl]]; rewrite Hurl;
    eexists; apply Str.append_assoc.
Qed.

End Alerter.


(** ** The theorems on concrete rules and matches *)

(** The three cases of the resolution order on the sample event. *)
Lemma lookup_field_order_witness :
  lookup_field Sample.lookup_es_key (init Sample.repr Sample.super_init Sample.base_rule)
               Sample.event "hash" (VStr "") = VStr "d41d8cd9" /\
  lookup_field Sample.lookup_es_key (init Sample.repr Sample.super_init Sample.base_rule)
               Sample.event "name" (VStr "") = VStr "Test Rule" /\
  lookup_field Sample.lookup_es_key (init Sample.repr Sample.super_init Sample.base_rule)
               Sample.event "absent" (VStr "n/a") = VStr "n/a".
Proof.
  split; [|split].
  - apply (proj1 (lookup_field_order Sample.lookup_es_key
                    (init Sample.repr Sample.super_init Sample.base_rule) Sample.event "hash" (VStr ""))).
    discriminate.
  - apply (proj1 (proj2 (lookup_field_order Sample.lookup_es_key
                           (init Sample.repr Sample.super_init Sample.base_rule) Sample.event "name" (VStr "")))).
    + reflexivity.
    + reflexivity.
  - apply (proj2 (proj2 (lookup_field_order Sample.lookup_es_key
                           (init Sample.repr Sample.super_init Sample.base_rule) Sample.event "absent" (VStr "n/a")))).
    + reflexivity.
    + reflexivity.
Defined.

(** [None] and a template with brackets but no token. *)
Lemma format_identity_witness :
  format_string_with_match Sample.repr Sample.lookup_es_key VNone [Sample.event]
    = Ok VNone /\
  format_string_with_match Sample.repr Sample.lookup_es_key
    (VStr "Suspicious login {0[]} [x]") [] = Ok (VStr "Suspicious login {0[]} [x]").
Proof.
  split.
  - apply (proj1 (format_identity Sample.repr Sample.lookup_es_key)).
  - apply (proj2 (format_identity Sample.repr Sample.lookup_es_key)).
    intros before name after Hname Hbracket Heq.
    pose proof (scan_finds_token _ before name after Hname Hbracket Heq) as Hscan.
    vm_compute in Hscan. discriminate.
Defined.

(** A template with a missing field and a present one. *)
Lemma format_total_witness :
  VStr "user {0[nope]} on {0[host.name]}" <> VNone /\
  [Sample.event] <> [] /\
  format_string_with_match Sample.repr Sample.lookup_es_key
    (VStr "user {0[nope]} on {0[host.name]}") [Sample.event]
    = Ok (VStr "user <MISSING: nope> on web-1").
Proof.
  assert (Htemplate : VStr "user {0[nope]} on {0[host.name]}" <> VNone)
    by discriminate.
  assert (Hmatches : [Sample.event] <> []) by discriminate.
  split; [exact Htemplate | split; [exact Hmatches |]].
  assert (Hscan : Re.scan (py_str Sample.repr (VStr "user {0[nope]} on {0[host.name]}"))
                  = Re.scan "user " ++ Re.Field "nope" :: Re.scan " on {0[host.name]}")
    by (vm_compute; reflexivity).
  destruct (proj2 (format_total Sample.repr Sample.lookup_es_key _ _
                     Htemplate Hmatches)
              Sample.event [] _ "nope" _ eq_refl Hscan eq_refl)
    as [_ (out_before & out_after & Hbefore & Hafter & Hformat)].
  rewrite Hformat.
  vm_compute in Hbefore. injection Hbefore as <-.
  vm_compute in Hafter. injection Hafter as <-.
  reflexivity.
Defined.

(** A token on a field that holds a list of three addresses. *)
Lemma format_list_joined_witness :
  format_string_with_match Sample.repr Sample.lookup_es_key
    (VStr "ips: {0[host.ip]}!") [Sample.event]
    = Ok (VStr "ips: 10.0.0.1, 10.0.0.2, 10.0.0.3!").
Proof.
  assert (Htemplate : VStr "ips: {0[host.ip]}!" <> VNone) by discriminate.
  assert (Hscan : Re.scan (py_str Sample.repr (VStr "ips: {0[host.ip]}!"))
                  = Re.scan "ips: " ++ Re.Field "host.ip" :: Re.scan "!")
    by (vm_compute; reflexivity).
  destruct (format_list_joined Sample.repr Sample.lookup_es_key
              (VStr "ips: {0[host.ip]}!") Sample.event [] _ _ "host.ip"
              [VStr "10.0.0.1"; VStr "10.0.0.2"; VStr "10.0.0.3"]
              Htemplate Hscan eq_refl)
    as [_ (out_before & out_after & _ & _ & Hbefore & Hafter & Hformat)].
  rewrite Hformat.
  rewrite (Hbefore ltac:(vm_compute; reflexivity)).
  rewrite (Hafter ltac:(vm_compute; reflexivity)).
  vm_compute. reflexivity.
Defined.

(** Three templates, the second on a field the event lacks. *)
Lemma make_iocs_records_kept_witness :
  make_iocs_records Sample.lookup_es_key
    (init Sample.repr Sample.super_init (("iris_iocs", Sample.ioc_templates) :: Sample.base_rule))
    [Sample.event]
  = Ok [[("ioc_value", VStr "web-1"); ("ioc_type_id", VInt 69)];
        [("ioc_value", VStr "d41d8cd9"); ("ioc_type_id", VInt 90)]].
Proof.
  apply (make_iocs_records_kept Sample.lookup_es_key
           (init Sample.repr Sample.super_init (("iris_iocs", Sample.ioc_templates) :: Sample.base_rule))
           Sample.event []
           [[("ioc_value", VStr "host.name"); ("ioc_type_id", VInt 69)];
            [("ioc_value", VStr "missing"); ("ioc_type_id", VInt 1)];
            [("ioc_value", VStr "hash"); ("ioc_type_id", VInt 90)]]
           ["host.name"; "missing"; "hash"]).
  - reflexivity.
  - repeat constructor.
Defined.

(** A record whose field resolves to the empty string is kept. *)
Lemma empty_ioc_value_is_kept :
  ~ (truthy (Sample.lookup_es_key Sample.event "user") = false ->
     make_iocs_records Sample.lookup_es_key
       (init Sample.repr Sample.super_init Sample.empty_user_rule) [Sample.event] = Ok []).
Proof.
  intros H. specialize (H eq_refl). vm_compute in H. discriminate.
Qed.

(** The payload of a rule with IOC templates, no source link, no context
    and no note. *)
Lemma make_alert_optional_keys_witness :
  exists payload w',
    make_alert Sample.repr Sample.lookup_es_key Sample.create_title
      Sample.create_alert_body Sample.now
      (init Sample.repr Sample.super_init Sample.alert_rule) [Sample.event] idle = (Ok payload, w') /\
    dict_has "alert_source_link" payload = false /\
    dict_has "alert_iocs" payload = true /\
    dict_has "alert_context" payload = false /\
    dict_get "alert_note" payload = Some VNone.
Proof.
  destruct (make_alert Sample.repr Sample.lookup_es_key Sample.create_title
              Sample.create_alert_body Sample.now
              (init Sample.repr Sample.super_init Sample.alert_rule) [Sample.event] idle)
    as [[payload|e] w'] eqn:Hrun; [|vm_compute in Hrun; discriminate].
  exists payload, w'. split; [reflexivity|].
  destruct (make_alert_optional_keys _ _ _ _ _ _ _ _ _ _ Hrun)
    as (Hlink & Hiocs & Hcontext & _ & _ & Hnote & _).
  repeat match goal with |- _ /\ _ => split end.
  - exact Hlink.
  - exact Hiocs.
  - exact Hcontext.
  - exact (Hnote eq_refl).
Defined.

(** With no note configured the payload holds [alert_note], set to
    [None]. *)
Lemma unset_note_key_is_present :
  ~ (forall payload w',
       make_alert Sample.repr Sample.lookup_es_key Sample.create_title
         Sample.create_alert_body Sample.now
         (init Sample.repr Sample.super_init Sample.base_rule) [Sample.event] idle = (Ok payload, w') ->
       alert_note (init Sample.repr Sample.super_init Sample.base_rule) = VNone ->
       dict_has "alert_note" payload = false).
Proof.
  intros H. specialize (H _ _ eq_refl eq_refl). vm_compute in H. discriminate.
Qed.

(** A description that formats to the empty string stays in the payload:
    the standard body is not used. *)
Lemma formatted_empty_description_is_kept :
  ~ (forall payload w',
       make_alert Sample.repr Sample.lookup_es_key Sample.create_title
         Sample.create_alert_body Sample.now
         (init Sample.repr Sample.super_init Sample.blank_description_rule)
         [Sample.event] idle = (Ok payload, w') ->
       format_string_with_match Sample.repr Sample.lookup_es_key
         (description (init Sample.repr Sample.super_init
                            Sample.blank_description_rule))
         [Sample.event] = Ok (VStr "") ->
       dict_get "alert_description" payload
       = Some (Sample.create_alert_body [Sample.event])).
Proof.
  intros H.
  specialize (H _ _ eq_refl ltac:(vm_compute; reflexivity)).
  vm_compute in H. discriminate.
Qed.

(** The description of the payload, without and with a configured
    description. *)
Lemma make_alert_description_witness :
  (exists payload w',
     make_alert Sample.repr Sample.lookup_es_key Sample.create_title
       Sample.create_alert_body Sample.now
       (init Sample.repr Sample.super_init Sample.base_rule) [Sample.event] idle = (Ok payload, w') /\
     dict_get "alert_description" payload = Some (VStr "Test Rule body")) /\
  (exists payload w',
     make_alert Sample.repr Sample.lookup_es_key Sample.create_title
       Sample.create_alert_body Sample.now
       (init Sample.repr Sample.super_init Sample.alert_rule) [Sample.event] idle = (Ok payload, w') /\
     dict_get "alert_description" payload = Some (VStr "Host web-1 seen")).
Proof.
  split.
  - destruct (make_alert Sample.repr Sample.lookup_es_key Sample.create_title
                Sample.create_alert_body Sample.now
                (init Sample.repr Sample.super_init Sample.base_rule) [Sample.event] idle)
      as [[payload|e] w'] eqn:Hrun; [|vm_compute in Hrun; discriminate].
    exists payload, w'. split; [reflexivity|].
    exact (proj1 (make_alert_description _ _ _ _ _ _ _ _ _ _ Hrun) eq_refl).
  - destruct (make_alert Sample.repr Sample.lookup_es_key Sample.create_title
                Sample.create_alert_body Sample.now
                (init Sample.repr Sample.super_init Sample.alert_rule) [Sample.event] idle)
      as [[payload|e] w'] eqn:Hrun; [|vm_compute in Hrun; discriminate].
    exists payload, w'. split; [reflexivity|].
    destruct (proj2 (make_alert_description _ _ _ _ _ _ _ _ _ _ Hrun) eq_refl)
      as (formatted & Hformat & Hget).
    rewrite Hget. vm_compute in Hformat. now injection Hformat as <-.
Defined.

(** The mode [case] takes the case branch. *)
Lemma dispatch_by_substring_witness :
  type (init Sample.repr Sample.super_init Sample.case_rule) = VStr "case" /\
  dispatch (type (init Sample.repr Sample.super_init Sample.case_rule)) = Ok CaseSubmit /\
  dispatch (type (init Sample.repr Sample.super_init Sample.case_rule)) <> Ok AlertSubmit.
Proof.
  assert (Hmode : type (init Sample.repr Sample.super_init Sample.case_rule) = VStr "case")
    by reflexivity.
  destruct (dispatch_by_substring Sample.repr Sample.lookup_es_key
              Sample.create_title Sample.create_alert_body Sample.now
              Sample.uuid4 Sample.accepting
              (init Sample.repr Sample.super_init Sample.case_rule) "case" [Sample.event] idle Hmode)
    as (Halert & Hcase & _ & _ & _).
  assert (Hno_alert : ~ (exists pre post, "case" = (pre ++ "alert" ++ post)%string)).
  { rewrite <- Str.str_in_spec. vm_compute. discriminate. }
  split; [exact Hmode | split].
  - apply Hcase. split; [|exact Hno_alert].
    exists "", "". reflexivity.
  - intros H. apply Hno_alert. apply Halert. exact H.
Defined.

(** A mode written in capitals contains [alert] when case is ignored, yet
    [alert] takes neither branch and posts nothing. *)
Lemma capitals_take_no_branch :
  ~ (Str.str_in "alert" (Str.lower "ALERT") = true ->
     dispatch (type (init Sample.repr Sample.super_init Sample.shouting_rule)) = Ok AlertSubmit) /\
  alert Sample.repr Sample.lookup_es_key Sample.create_title
    Sample.create_alert_body Sample.now Sample.uuid4 Sample.accepting
    (init Sample.repr Sample.super_init Sample.shouting_rule) [Sample.event] idle = (Ok tt, idle).
Proof.
  split.
  - intros H. specialize (H eq_refl). vm_compute in H. discriminate.
  - vm_compute. reflexivity.
Qed.

(** Three IOC records, the second attach call answered 404: the case
    request and two attach requests are posted. *)
Lemma ioc_linking_fail_fast_witness :
  exists case_data records w',
    make_case Sample.lookup_es_key Sample.uuid4
      (init Sample.repr Sample.super_init Sample.case_rule) [Sample.event] = Ok (case_data, records) /\
    length records = 3 /\
    alert Sample.repr Sample.lookup_es_key Sample.create_title
      Sample.create_alert_body Sample.now Sample.uuid4
      (Sample.rejecting_from 2 404)
      (init Sample.repr Sample.super_init Sample.case_rule) [Sample.event] idle
      = (Raise (EAException "Unable to add a new IOC to the case 7"), w') /\
    posted w' =
      case_request (init Sample.repr Sample.super_init Sample.case_rule)
                   (tls_verify (init Sample.repr Sample.super_init Sample.case_rule)) case_data
      :: map (fun ioc =>
                ioc_request (init Sample.repr Sample.super_init Sample.case_rule)
                            (tls_verify (init Sample.repr Sample.super_init Sample.case_rule))
                            (dict_set "cid" (VInt 7) ioc))
             (firstn 2 records).
Proof.
  destruct (make_case Sample.lookup_es_key Sample.uuid4
              (init Sample.repr Sample.super_init Sample.case_rule) [Sample.event])
    as [[case_data records]|e] eqn:Hcase; [|vm_compute in Hcase; discriminate].
  assert (Hlen : length records = 3).
  { vm_compute in Hcase. injection Hcase as _ <-. reflexivity. }
  destruct (ioc_linking_fail_fast Sample.repr Sample.lookup_es_key
              Sample.create_title Sample.create_alert_body Sample.now
              Sample.uuid4 (Sample.rejecting_from 2 404)
              (init Sample.repr Sample.super_init Sample.case_rule) [Sample.event] idle
              case_data records Sample.case_body
              (VDict [("case_id", VInt 7)]) (VInt 7) 1)
    as (w' & Hrun & Hposted).
  - reflexivity.
  - exact Hcase.
  - reflexivity.
  - reflexivity.
  - reflexivity.
  - rewrite Hlen. lia.
  - intros j ioc Hj _. assert (j = 0) as -> by lia.
    eexists. split; reflexivity.
  - intros ioc _. eexists. split; [reflexivity | discriminate].
  - exists case_data, records, w'.
    split; [reflexivity | split; [exact Hlen | split; [exact Hrun | exact Hposted]]].
Defined.

(** Three IOC records, the first attach call answered 404, case id 7: the
    exception names the case id and not the index 0 of the record that
    failed. *)
Lemma failing_ioc_index_not_named :
  ~ (exists msg w',
       alert Sample.repr Sample.lookup_es_key Sample.create_title
         Sample.create_alert_body Sample.now Sample.uuid4
         (Sample.rejecting_from 1 404)
         (init Sample.repr Sample.super_init Sample.case_rule) [Sample.event] idle
         = (Raise (EAException msg), w') /\
       Str.str_in (Str.decimal 7) msg = true /\
       Str.str_in (Str.decimal 0) msg = true).
Proof.
  intros (msg & w' & Hrun & _ & Hindex).
  vm_compute in Hrun. injection Hrun as <- _.
  vm_compute in Hindex. discriminate.
Qed.

(** A case-creation body with a [status] entry only. *)
Lemma case_without_data_attribute_error_witness :
  exists case_data records w',
    make_case Sample.lookup_es_key Sample.uuid4
      (init Sample.repr Sample.super_init Sample.case_rule) [Sample.event] = Ok (case_data, records) /\
    length records = 3 /\
    alert Sample.repr Sample.lookup_es_key Sample.create_title
      Sample.create_alert_body Sample.now Sample.uuid4 Sample.without_data
      (init Sample.repr Sample.super_init Sample.case_rule) [Sample.event] idle
      = (Raise (AttributeError "str" "get"), w') /\
    posted w' =
      [case_request (init Sample.repr Sample.super_init Sample.case_rule)
                    (tls_verify (init Sample.repr Sample.super_init Sample.case_rule)) case_data].
Proof.
  destruct (make_case Sample.lookup_es_key Sample.uuid4
              (init Sample.repr Sample.super_init Sample.case_rule) [Sample.event])
    as [[case_data records]|e] eqn:Hcase; [|vm_compute in Hcase; discriminate].
  assert (Hlen : length records = 3).
  { vm_compute in Hcase. injection Hcase as _ <-. reflexivity. }
  destruct (case_without_data_attribute_error Sample.repr Sample.lookup_es_key
              Sample.create_title Sample.create_alert_body Sample.now
              Sample.uuid4 Sample.without_data
              (init Sample.repr Sample.super_init Sample.case_rule) [Sample.event] idle
              case_data records [("status", VStr "success")])
    as (_ & w' & Hrun & Hposted).
  - reflexivity.
  - exact Hcase.
  - reflexivity.
  - reflexivity.
  - exists case_data, records, w'.
    split; [reflexivity | split; [exact Hlen | split; [exact Hrun | exact Hposted]]].
Defined.

(** ** Further properties on concrete rules and matches *)

(** A token on a field that holds a string. *)
Lemma format_scalar_value_witness :
  format_string_with_match Sample.repr Sample.lookup_es_key
    (VStr "hash={0[hash]};") [Sample.event] = Ok (VStr "hash=d41d8cd9;").
Proof.
  assert (Htemplate : VStr "hash={0[hash]};" <> VNone) by discriminate.
  assert (Hscan : Re.scan (py_str Sample.repr (VStr "hash={0[hash]};"))
                  = Re.scan "hash=" ++ Re.Field "hash" :: Re.scan ";")
    by (vm_compute; reflexivity).
  destruct (format_scalar_value Sample.repr Sample.lookup_es_key
              (VStr "hash={0[hash]};") Sample.event [] _ _ "hash"
              Htemplate Hscan)
    as (out_before & out_after & Hbefore & Hafter & Hformat).
  - discriminate.
  - intros items. discriminate.
  - rewrite Hformat.
    vm_compute in Hbefore. injection Hbefore as <-.
    vm_compute in Hafter. injection Hafter as <-.
    reflexivity.
Defined.

(** A template with one token and no match. *)
Lemma format_empty_matches_witness :
  format_string_with_match Sample.repr Sample.lookup_es_key
    (VStr "on {0[host.name]}") [] = Raise IndexError.
Proof.
  apply (format_empty_matches Sample.repr Sample.lookup_es_key
           (VStr "on {0[host.name]}") "on " "host.name" "").
  - discriminate.
  - discriminate.
  - reflexivity.
  - reflexivity.
Defined.

(** Three templates, the second on a field the event lacks. *)
Lemma make_iocs_records_values_witness :
  exists out,
    make_iocs_records Sample.lookup_es_key
      (init Sample.repr Sample.super_init (("iris_iocs", Sample.ioc_templates) :: Sample.base_rule))
      [Sample.event] = Ok out /\
    length out <= 3 /\
    Forall (fun record => exists value,
                dict_get "ioc_value" record = Some value /\ value <> VNone) out.
Proof.
  eexists. split; [vm_compute; reflexivity|].
  apply (make_iocs_records_values Sample.lookup_es_key
           (init Sample.repr Sample.super_init (("iris_iocs", Sample.ioc_templates) :: Sample.base_rule))
           [Sample.event]
           [VDict [("ioc_value", VStr "host.name"); ("ioc_type_id", VInt 69)];
            VDict [("ioc_value", VStr "missing"); ("ioc_type_id", VInt 1)];
            VDict [("ioc_value", VStr "hash"); ("ioc_type_id", VInt 90)]]).
  - reflexivity.
  - vm_compute. reflexivity.
Defined.

(** A well-formed template followed by one without [ioc_value]. *)
Lemma make_iocs_records_missing_key_witness :
  make_iocs_records Sample.lookup_es_key
    (init Sample.repr Sample.super_init Sample.bad_ioc_rule) [Sample.event]
  = Raise (KeyError "ioc_value").
Proof.
  apply (make_iocs_records_missing_key Sample.lookup_es_key
           (init Sample.repr Sample.super_init Sample.bad_ioc_rule) Sample.event []
           [[("ioc_value", VStr "host.name"); ("ioc_type_id", VInt 69)]]
           ["host.name"] [("ioc_type_id", VInt 90)] []).
  - reflexivity.
  - repeat constructor.
  - reflexivity.
Defined.

(** Three templates and no match. *)
Lemma make_iocs_records_needs_match_witness :
  make_iocs_records Sample.lookup_es_key
    (init Sample.repr Sample.super_init (("iris_iocs", Sample.three_iocs) :: Sample.base_rule)) []
  = Raise IndexError.
Proof.
  apply (proj2 (make_iocs_records_needs_match Sample.lookup_es_key
                  (init Sample.repr Sample.super_init (("iris_iocs", Sample.three_iocs) :: Sample.base_rule))
                  [VDict [("ioc_value", VStr "host.name"); ("ioc_type_id", VInt 69)];
                   VDict [("ioc_value", VStr "hash"); ("ioc_type_id", VInt 90)];
                   VDict [("ioc_value", VStr "@timestamp"); ("ioc_type_id", VInt 1)]]
                  eq_refl)
           [("ioc_value", VStr "host.name"); ("ioc_type_id", VInt 69)]
           [VDict [("ioc_value", VStr "hash"); ("ioc_type_id", VInt 90)];
            VDict [("ioc_value", VStr "@timestamp"); ("ioc_type_id", VInt 1)]]).
  reflexivity.
Defined.

(** A context with a field of the event, a field nobody holds and an
    option of the rule. *)
Lemma make_alert_context_records_values_witness :
  make_alert_context_records Sample.repr Sample.lookup_es_key
    (init Sample.repr Sample.super_init Sample.context_rule) [Sample.event]
  = Ok [("hostname", VStr "web-1"); ("owner", VStr ""); ("rule", VStr "Test Rule")].
Proof.
  apply (make_alert_context_records_values Sample.repr Sample.lookup_es_key
           (init Sample.repr Sample.super_init Sample.context_rule) Sample.event []
           [("hostname", VStr "host.name"); ("owner", VStr "owner");
            ("rule", VStr "name")]
           ["host.name"; "owner"; "name"]).
  - reflexivity.
  - repeat constructor.
  - repeat constructor; simpl; intuition discriminate.
Defined.

(** The payload of a rule with the required options only. *)
Lemma make_alert_defaults_witness :
  exists payload w',
    make_alert Sample.repr Sample.lookup_es_key Sample.create_title
      Sample.create_alert_body Sample.now
      (init Sample.repr Sample.super_init Sample.base_rule) [Sample.event] idle = (Ok payload, w') /\
    dict_get "alert_source" payload = Some (VStr "ElastAlert2") /\
    dict_get "alert_severity_id" payload = Some (VInt 1) /\
    dict_get "alert_status_id" payload = Some (VInt 2) /\
    dict_get "alert_customer_id" payload = Some (VInt 1).
Proof.
  destruct (make_alert Sample.repr Sample.lookup_es_key Sample.create_title
              Sample.create_alert_body Sample.now
              (init Sample.repr Sample.super_init Sample.base_rule) [Sample.event] idle)
    as [[payload|e] w'] eqn:Hrun; [|vm_compute in Hrun; discriminate].
  exists payload, w'. split; [reflexivity|].
  exact (make_alert_defaults Sample.repr Sample.lookup_es_key Sample.create_title
           Sample.create_alert_body Sample.now Sample.super_init Sample.base_rule
           [Sample.event] idle w' payload Hrun).
Defined.

(** The event time with and without the overwrite option. *)
Lemma make_alert_timestamp_witness :
  (exists payload w',
     make_alert Sample.repr Sample.lookup_es_key Sample.create_title
       Sample.create_alert_body Sample.now
       (init Sample.repr Sample.super_init Sample.base_rule) [Sample.event] idle = (Ok payload, w') /\
     dict_get "alert_source_event_time" payload = Some (VStr "2024-05-01T12:00:00")) /\
  (exists payload w',
     make_alert Sample.repr Sample.lookup_es_key Sample.create_title
       Sample.create_alert_body Sample.now
       (init Sample.repr Sample.super_init Sample.context_rule) [Sample.event] idle = (Ok payload, w') /\
     dict_get "alert_source_event_time" payload = Some (VStr "2024-04-30T23:59:59")).
Proof.
  split.
  - destruct (make_alert Sample.repr Sample.lookup_es_key Sample.create_title
                Sample.create_alert_body Sample.now
                (init Sample.repr Sample.super_init Sample.base_rule) [Sample.event] idle)
      as [[payload|e] w'] eqn:Hrun; [|vm_compute in Hrun; discriminate].
    exists payload, w'. split; [reflexivity|].
    exact (proj1 (make_alert_timestamp _ _ _ _ _ _ _ _ _ _ Hrun) eq_refl).
  - destruct (make_alert Sample.repr Sample.lookup_es_key Sample.create_title
                Sample.create_alert_body Sample.now
                (init Sample.repr Sample.super_init Sample.context_rule) [Sample.event] idle)
      as [[payload|e] w'] eqn:Hrun; [|vm_compute in Hrun; discriminate].
    exists payload, w'. split; [reflexivity|].
    destruct (proj2 (make_alert_timestamp _ _ _ _ _ _ _ _ _ _ Hrun) eq_refl)
      as (first & rest & Hmatches & Htime).
    injection Hmatches as <- _. exact Htime.
Defined.

(** A title that the base class left with a token in it. *)
Lemma make_alert_title_witness :
  exists payload w',
    make_alert Sample.repr Sample.lookup_es_key Sample.templated_title
      Sample.create_alert_body Sample.now
      (init Sample.repr Sample.super_init Sample.base_rule) [Sample.event] idle = (Ok payload, w') /\
    dict_get "alert_title" payload = Some (VStr "Alert on web-1").
Proof.
  destruct (make_alert Sample.repr Sample.lookup_es_key Sample.templated_title
              Sample.create_alert_body Sample.now
              (init Sample.repr Sample.super_init Sample.base_rule) [Sample.event] idle)
    as [[payload|e] w'] eqn:Hrun; [|vm_compute in Hrun; discriminate].
  exists payload, w'. split; [reflexivity|].
  destruct (proj2 (make_alert_title _ _ _ _ _ _ _ _ _ _ Hrun) eq_refl)
    as (formatted & Hformat & Hget).
  rewrite Hget. vm_compute in Hformat. now injection Hformat as <-.
Defined.

(** The IOC records and the context of the payload. *)
Lemma make_alert_records_witness :
  (exists payload w',
     make_alert Sample.repr Sample.lookup_es_key Sample.create_title
       Sample.create_alert_body Sample.now
       (init Sample.repr Sample.super_init Sample.alert_rule) [Sample.event] idle = (Ok payload, w') /\
     dict_get "alert_iocs" payload
     = Some (VList [VDict [("ioc_value", VStr "web-1"); ("ioc_type_id", VInt 69)];
                    VDict [("ioc_value", VStr "d41d8cd9"); ("ioc_type_id", VInt 90)]])) /\
  (exists payload w',
     make_alert Sample.repr Sample.lookup_es_key Sample.create_title
       Sample.create_alert_body Sample.now
       (init Sample.repr Sample.super_init Sample.context_rule) [Sample.event] idle = (Ok payload, w') /\
     dict_get "alert_context" payload
     = Some (VDict [("hostname", VStr "web-1"); ("owner", VStr "");
                    ("rule", VStr "Test Rule")])).
Proof.
  split.
  - destruct (make_alert Sample.repr Sample.lookup_es_key Sample.create_title
                Sample.create_alert_body Sample.now
                (init Sample.repr Sample.super_init Sample.alert_rule) [Sample.event] idle)
      as [[payload|e] w'] eqn:Hrun; [|vm_compute in Hrun; discriminate].
    exists payload, w'. split; [reflexivity|].
    destruct (proj1 (make_alert_records _ _ _ _ _ _ _ _ _ _ Hrun) eq_refl)
      as (records & Hrecords & Hget).
    rewrite Hget. vm_compute in Hrecords. now injection Hrecords as <-.
  - destruct (make_alert Sample.repr Sample.lookup_es_key Sample.create_title
                Sample.create_alert_body Sample.now
                (init Sample.repr Sample.super_init Sample.context_rule) [Sample.event] idle)
      as [[payload|e] w'] eqn:Hrun; [|vm_compute in Hrun; discriminate].
    exists payload, w'. split; [reflexivity|].
    destruct (proj2 (make_alert_records _ _ _ _ _ _ _ _ _ _ Hrun) eq_refl)
      as (context & Hcontext & Hget).
    rewrite Hget. vm_compute in Hcontext. now injection Hcontext as <-.
Defined.

(** The log line of a rule without tags. *)
Lemma make_alert_effects_witness :
  exists payload w',
    make_alert Sample.repr Sample.lookup_es_key Sample.create_title
      Sample.create_alert_body Sample.now
      (init Sample.repr Sample.super_init Sample.base_rule) [Sample.event] idle = (Ok payload, w') /\
    posted w' = [] /\
    logged w' = ["IRIS Alert Tags: None"].
Proof.
  destruct (make_alert Sample.repr Sample.lookup_es_key Sample.create_title
              Sample.create_alert_body Sample.now
              (init Sample.repr Sample.super_init Sample.base_rule) [Sample.event] idle)
    as [[payload|e] w'] eqn:Hrun; [|vm_compute in Hrun; discriminate].
  exists payload, w'. split; [reflexivity|].
  destruct (make_alert_effects _ _ _ _ _ _ _ _ _ _ Hrun)
    as (Hposted & _ & Hlogged).
  destruct (Hlogged payload eq_refl) as (tags & _ & _ & Hnone).
  split; [exact Hposted | exact (Hnone eq_refl)].
Defined.

(** The case payload of a rule with three IOC templates. *)
Lemma make_case_payload_witness :
  exists case_data records,
    make_case Sample.lookup_es_key Sample.uuid4
      (init Sample.repr Sample.super_init Sample.case_rule) [Sample.event] = Ok (case_data, records) /\
    dict_get "case_soc_id" case_data = Some (VStr "SOC_3f2b8c") /\
    dict_get "case_name" case_data = Some (VStr "Test Rule") /\
    dict_has "case_template_id" case_data = false.
Proof.
  destruct (make_case Sample.lookup_es_key Sample.uuid4
              (init Sample.repr Sample.super_init Sample.case_rule) [Sample.event])
    as [[case_data records]|e] eqn:Hcase; [|vm_compute in Hcase; discriminate].
  exists case_data, records. split; [reflexivity|].
  destruct (make_case_payload _ _ _ _ _ _ Hcase)
    as (Hid & _ & Hname & _ & Htemplate & _).
  split; [exact Hid | split; [exact Hname | exact Htemplate]].
Defined.

(** An alert accepted, and an alert answered 500. *)
Lemma alert_mode_outcome_witness :
  (exists w',
     alert Sample.repr Sample.lookup_es_key Sample.create_title
       Sample.create_alert_body Sample.now Sample.uuid4 Sample.accepting
       (init Sample.repr Sample.super_init Sample.alert_rule) [Sample.event] idle = (Ok tt, w') /\
     length (posted w') = 1 /\
     logged w' = ["IRIS Alert Tags: None"; "Alert sent to Iris"]) /\
  (exists w',
     alert Sample.repr Sample.lookup_es_key Sample.create_title
       Sample.create_alert_body Sample.now Sample.uuid4
       (Sample.rejecting_from 0 500)
       (init Sample.repr Sample.super_init Sample.alert_rule) [Sample.event] idle
     = (Raise (EAException "Cannot create a new alert: 500"), w') /\
     length (posted w') = 1 /\
     logged w' = ["IRIS Alert Tags: None"]).
Proof.
  destruct (make_alert Sample.repr Sample.lookup_es_key Sample.create_title
              Sample.create_alert_body Sample.now
              (init Sample.repr Sample.super_init Sample.alert_rule) [Sample.event] idle)
    as [[payload|e] w1] eqn:Hmake; [|vm_compute in Hmake; discriminate].
  assert (Hpayload : fst (make_alert Sample.repr Sample.lookup_es_key
                            Sample.create_title Sample.create_alert_body Sample.now
                            (init Sample.repr Sample.super_init Sample.alert_rule) [Sample.event] idle)
                     = Ok payload) by now rewrite Hmake.
  split.
  - destruct (alert_mode_outcome Sample.repr Sample.lookup_es_key
                Sample.create_title Sample.create_alert_body Sample.now
                Sample.uuid4 Sample.accepting
                (init Sample.repr Sample.super_init Sample.alert_rule) [Sample.event] idle payload
                eq_refl Hpayload)
      as (line & Haccepted & _ & _).
    destruct (Haccepted _ eq_refl eq_refl) as (w' & Hrun & Hposted & Hlogged).
    exists w'. split; [exact Hrun | split].
    + rewrite Hposted. reflexivity.
    + pose proof Hrun as Hline. vm_compute in Hline.
      injection Hline as <-. reflexivity.
  - destruct (alert_mode_outcome Sample.repr Sample.lookup_es_key
                Sample.create_title Sample.create_alert_body Sample.now
                Sample.uuid4 (Sample.rejecting_from 0 500)
                (init Sample.repr Sample.super_init Sample.alert_rule) [Sample.event] idle payload
                eq_refl Hpayload)
      as (line & _ & Hrejected & _).
    destruct (Hrejected _ eq_refl ltac:(discriminate))
      as (w' & Hrun & Hposted & Hlogged).
    exists w'. split; [exact Hrun | split].
    + rewrite Hposted. reflexivity.
    + pose proof Hrun as Hline. vm_compute in Hline.
      injection Hline as <-. reflexivity.
Defined.

(** A case creation answered 503. *)
Lemma case_creation_failure_witness :
  exists w',
    alert Sample.repr Sample.lookup_es_key Sample.create_title
      Sample.create_alert_body Sample.now Sample.uuid4
      (Sample.rejecting_from 0 503)
      (init Sample.repr Sample.super_init Sample.case_rule) [Sample.event] idle
    = (Raise (EAException "Cannot create a new case: 503"), w') /\
    length (posted w') = 1 /\
    logged w' = [].
Proof.
  destruct (make_case Sample.lookup_es_key Sample.uuid4
              (init Sample.repr Sample.super_init Sample.case_rule) [Sample.event])
    as [[case_data records]|e] eqn:Hcase; [|vm_compute in Hcase; discriminate].
  destruct (case_creation_failure Sample.repr Sample.lookup_es_key
              Sample.create_title Sample.create_alert_body Sample.now
              Sample.uuid4 (Sample.rejecting_from 0 503)
              (init Sample.repr Sample.super_init Sample.case_rule) [Sample.event] idle
              case_data records eq_refl Hcase)
    as (Hrejected & _ & _).
  destruct (Hrejected _ eq_refl ltac:(discriminate))
    as (w' & Hrun & Hposted & Hlogged).
  exists w'. split; [exact Hrun | split].
  - rewrite Hposted. reflexivity.
  - exact Hlogged.
Defined.

(** A case with three IOC records, all accepted. *)
Lemma case_mode_success_witness :
  exists w',
    alert Sample.repr Sample.lookup_es_key Sample.create_title
      Sample.create_alert_body Sample.now Sample.uuid4 Sample.accepting
      (init Sample.repr Sample.super_init Sample.case_rule) [Sample.event] idle = (Ok tt, w') /\
    length (posted w') = 4 /\
    logged w' = ["IOCs successfully added to the case";
                 "IOCs successfully added to the case";
                 "IOCs successfully added to the case";
                 "Case successfully created in Iris"].
Proof.
  destruct (make_case Sample.lookup_es_key Sample.uuid4
              (init Sample.repr Sample.super_init Sample.case_rule) [Sample.event])
    as [[case_data records]|e] eqn:Hcase; [|vm_compute in Hcase; discriminate].
  assert (Hlen : length records = 3).
  { vm_compute in Hcase. injection Hcase as _ <-. reflexivity. }
  destruct (case_mode_success Sample.repr Sample.lookup_es_key
              Sample.create_title Sample.create_alert_body Sample.now
              Sample.uuid4 Sample.accepting
              (init Sample.repr Sample.super_init Sample.case_rule) [Sample.event] idle
              case_data records Sample.case_body
              (VDict [("case_id", VInt 7)]) (VInt 7)
              eq_refl Hcase eq_refl eq_refl eq_refl)
    as (w' & Hrun & Hposted & Hlogged).
  - intros j ioc _. eexists. split; reflexivity.
  - exists w'. split; [exact Hrun | split].
    + rewrite Hposted. cbn [posted idle app length]. now rewrite length_map, Hlen.
    + rewrite Hlogged, Hlen. reflexivity.
Defined.

(** Three IOC records, the connection lost on the second attach call. *)
Lemma ioc_transport_failure_witness :
  exists w',
    alert Sample.repr Sample.lookup_es_key Sample.create_title
      Sample.create_alert_body Sample.now Sample.uuid4
      (Sample.failing_from 2 "timed out")
      (init Sample.repr Sample.super_init Sample.case_rule) [Sample.event] idle
    = (Raise (EAException "Error when adding IOC to the case 7: timed out"), w') /\
    length (posted w') = 3.
Proof.
  destruct (make_case Sample.lookup_es_key Sample.uuid4
              (init Sample.repr Sample.super_init Sample.case_rule) [Sample.event])
    as [[case_data records]|e] eqn:Hcase; [|vm_compute in Hcase; discriminate].
  assert (Hlen : length records = 3).
  { vm_compute in Hcase. injection Hcase as _ <-. reflexivity. }
  destruct (ioc_transport_failure Sample.repr Sample.lookup_es_key
              Sample.create_title Sample.create_alert_body Sample.now
              Sample.uuid4 (Sample.failing_from 2 "timed out")
              (init Sample.repr Sample.super_init Sample.case_rule) [Sample.event] idle
              case_data records Sample.case_body
              (VDict [("case_id", VInt 7)]) (VInt 7) 1 "timed out"
              eq_refl Hcase eq_refl eq_refl eq_refl)
    as (w' & Hrun & Hposted).
  - rewrite Hlen. lia.
  - intros j ioc Hj _. assert (j = 0) as -> by lia.
    eexists. split; reflexivity.
  - intros ioc _. reflexivity.
  - exists w'. split; [exact Hrun|].
    rewrite Hposted. cbn [posted idle app length]. rewrite length_map, length_firstn, Hlen.
    reflexivity.
Defined.

(** Three IOC records, the second attach call answered 404. *)
Lemma case_mode_requests_in_order_witness :
  exists case_data records r w' case_id k,
    make_case Sample.lookup_es_key Sample.uuid4
      (init Sample.repr Sample.super_init Sample.case_rule) [Sample.event] = Ok (case_data, records) /\
    alert Sample.repr Sample.lookup_es_key Sample.create_title
      Sample.create_alert_body Sample.now Sample.uuid4
      (Sample.rejecting_from 2 404)
      (init Sample.repr Sample.super_init Sample.case_rule) [Sample.event] idle = (r, w') /\
    k <= length records /\
    posted w' =
      case_request (init Sample.repr Sample.super_init Sample.case_rule)
                   (tls_verify (init Sample.repr Sample.super_init Sample.case_rule)) case_data
      :: map (fun ioc =>
                ioc_request (init Sample.repr Sample.super_init Sample.case_rule)
                            (tls_verify (init Sample.repr Sample.super_init Sample.case_rule))
                            (dict_set "cid" case_id ioc))
             (firstn k records).
Proof.
  destruct (make_case Sample.lookup_es_key Sample.uuid4
              (init Sample.repr Sample.super_init Sample.case_rule) [Sample.event])
    as [[case_data records]|e] eqn:Hcase; [|vm_compute in Hcase; discriminate].
  destruct (alert Sample.repr Sample.lookup_es_key Sample.create_title
              Sample.create_alert_body Sample.now Sample.uuid4
              (Sample.rejecting_from 2 404)
              (init Sample.repr Sample.super_init Sample.case_rule) [Sample.event] idle)
    as [r w'] eqn:Hrun.
  destruct (case_mode_requests_in_order Sample.repr Sample.lookup_es_key
              Sample.create_title Sample.create_alert_body Sample.now
              Sample.uuid4 (Sample.rejecting_from 2 404)
              (init Sample.repr Sample.super_init Sample.case_rule) [Sample.event] idle w'
              case_data records r eq_refl Hcase Hrun)
    as (case_id & k & Hk & Hposted & _).
  exists case_data, records, r, w', case_id, k.
  split; [reflexivity | split; [reflexivity | split; [exact Hk | exact Hposted]]].
Defined.

(** An alert rule whose second IOC template has no [ioc_value]. *)
Lemma build_failure_posts_nothing_witness :
  exists w',
    alert Sample.repr Sample.lookup_es_key Sample.create_title
      Sample.create_alert_body Sample.now Sample.uuid4 Sample.accepting
      (init Sample.repr Sample.super_init Sample.bad_ioc_rule) [Sample.event] idle
    = (Raise (KeyError "ioc_value"), w') /\
    posted w' = [].
Proof.
  apply (proj1 (build_failure_posts_nothing Sample.repr Sample.lookup_es_key
                  Sample.create_title Sample.create_alert_body Sample.now
                  Sample.uuid4 Sample.accepting
                  (init Sample.repr Sample.super_init Sample.bad_ioc_rule) [Sample.event] idle
                  (KeyError "ioc_value"))).
  - reflexivity.
  - vm_compute. reflexivity.
Defined.

(** A rule that ignores SSL errors leaves the warnings off. *)
Lemma alert_warnings_witness :
  exists r w',
    alert Sample.repr Sample.lookup_es_key Sample.create_title
      Sample.create_alert_body Sample.now Sample.uuid4 Sample.accepting
      (init Sample.repr Sample.super_init Sample.ignoring_rule) [Sample.event] idle = (r, w') /\
    warnings_disabled w' = true.
Proof.
  destruct (alert Sample.repr Sample.lookup_es_key Sample.create_title
              Sample.create_alert_body Sample.now Sample.uuid4 Sample.accepting
              (init Sample.repr Sample.super_init Sample.ignoring_rule) [Sample.event] idle)
    as [r w'] eqn:Hrun.
  exists r, w'. split; [reflexivity|].
  exact (alert_warnings _ _ _ _ _ _ _ _ _ _ _ _ Hrun).
Defined.

(** The requests of a case with three IOC records. *)
Lemma alert_requests_settings_witness :
  exists r w',
    alert Sample.repr Sample.lookup_es_key Sample.create_title
      Sample.create_alert_body Sample.now Sample.uuid4 Sample.accepting
      (init Sample.repr Sample.super_init Sample.ignoring_rule) [Sample.event] idle = (r, w') /\
    Forall (fun req => post_verify req = VBool false) (posted w').
Proof.
  destruct (alert Sample.repr Sample.lookup_es_key Sample.create_title
              Sample.create_alert_body Sample.now Sample.uuid4 Sample.accepting
              (init Sample.repr Sample.super_init Sample.ignoring_rule) [Sample.event] idle)
    as [r w'] eqn:Hrun.
  exists r, w'. split; [reflexivity|].
  destruct (alert_requests_settings _ _ _ _ _ _ _ _ _ _ _ _ Hrun)
    as (new & Hposted & Hall).
  rewrite Hposted. cbn [posted idle app].
  eapply Forall_impl; [|exact Hall].
  intros req (_ & Hverify & _). exact Hverify.
Defined.

(** A case-creation body whose [data] is null. *)
Lemma case_body_not_object_witness :
  exists w',
    alert Sample.repr Sample.lookup_es_key Sample.create_title
      Sample.create_alert_body Sample.now Sample.uuid4 Sample.null_data
      (init Sample.repr Sample.super_init Sample.case_rule) [Sample.event] idle
    = (Raise (AttributeError "NoneType" "get"), w') /\
    length (posted w') = 1.
Proof.
  destruct (make_case Sample.lookup_es_key Sample.uuid4
              (init Sample.repr Sample.super_init Sample.case_rule) [Sample.event])
    as [[case_data records]|e] eqn:Hcase; [|vm_compute in Hcase; discriminate].
  destruct (proj2 (case_body_not_object Sample.repr Sample.lookup_es_key
                     Sample.create_title Sample.create_alert_body Sample.now
                     Sample.uuid4 Sample.null_data
                     (init Sample.repr Sample.super_init Sample.case_rule) [Sample.event] idle
                     case_data records
                     (VDict [("status", VStr "error"); ("data", VNone)])
                     eq_refl Hcase eq_refl)
              [("status", VStr "error"); ("data", VNone)] VNone
              eq_refl eq_refl ltac:(discriminate))
    as (w' & Hrun & Hposted).
  exists w'. split; [exact Hrun|]. rewrite Hposted. reflexivity.
Defined.

(** The requests of a case made from the sample rule. *)
Lemma alert_requests_of_rule_witness :
  exists r w',
    alert Sample.repr Sample.lookup_es_key Sample.create_title
      Sample.create_alert_body Sample.now Sample.uuid4 Sample.accepting
      (init Sample.repr Sample.super_init Sample.case_rule) [Sample.event] idle = (r, w') /\
    Forall (fun req =>
              exists path, post_url req = ("https://iris.example" ++ path)%string)
           (posted w').
Proof.
  destruct (alert Sample.repr Sample.lookup_es_key Sample.create_title
              Sample.create_alert_body Sample.now Sample.uuid4 Sample.accepting
              (init Sample.repr Sample.super_init Sample.case_rule) [Sample.event] idle)
    as [r w'] eqn:Hrun.
  exists r, w'. split; [reflexivity|].
  destruct (alert_requests_of_rule _ _ _ _ _ _ _ _ _ _ _ _ _ Hrun)
    as (new & Hposted & Hall).
  rewrite Hposted. cbn [posted idle app].
  eapply Forall_impl; [|exact Hall].
  intros req ((path & Hurl) & _). exists path. exact Hurl.
Defined.
